(** * OctoDash status aggregation: a shallow embedding of the Go sources

    Embedded files:
    - [internal/models/printer.go]      (PrinterStatus, ProgressInfo, TemperatureInfo)
    - [internal/octoprint] client       (doRequest, GetPrinterState, GetJob,
                                         GetCurrentSpool, GetThumbnail)
    - [internal/handlers/handler.go]    (NewHandler, fetchPrinterStatus, handleStatus)

    Go strings are byte strings and are modelled by [string]; Go [int] values
    are only copied or formatted and are modelled by [Z]; the client map
    [map[string]*octoprint.Client] is a [gmap string Client].  The network is
    an explicit, read-only [World]; every upstream call a pipeline makes is
    appended to a call log, so that statements of the form "no job fetch is
    attempted" are statements about that log.  The goroutines of
    [handleStatus] are a step relation on the set of running goroutines and
    the contents of the status channel. *)

From Stdlib Require Import ZArith String Ascii DecimalString DecimalPos DecimalZ.
From stdpp Require Import gmap strings list relations.

(** ** Go's [strings] package: byte-string helpers used by the client *)

Module GoStrings.

(** [strings.HasSuffix(s, suffix)]:
    [len(s) >= len(suffix) && s[len(s)-len(suffix):] == suffix]. *)
Definition HasSuffix (s suffix : string) : bool :=
  (String.length suffix <=? String.length s)%nat &&
  String.eqb
    (substring (String.length s - String.length suffix) (String.length suffix) s)
    suffix.

(** [strings.TrimSuffix(s, suffix)]: [s[:len(s)-len(suffix)]] when [s] has
    the suffix, [s] itself otherwise. *)
Definition TrimSuffix (s suffix : string) : string :=
  if HasSuffix s suffix
  then substring 0 (String.length s - String.length suffix) s
  else s.

End GoStrings.

(** [fmt]'s [%d] verb on a Go [int]. *)
Definition Sprintf_d (n : Z) : string := NilZero.string_of_int (Z.to_int n).

(** The bytes ['0'] to ['9'], of which [%d] writes a non-negative number. *)
Definition is_digit (c : ascii) : bool :=
  (48 <=? nat_of_ascii c)%nat && (nat_of_ascii c <=? 57)%nat.

Fixpoint all_digits (s : string) : bool :=
  match s with
  | EmptyString => true
  | String c s' => is_digit c && all_digits s'
  end.


(** ** Go values the sources only pass around *)

(** [float64] values are copied from upstream responses into the status
    record and converted once ([int(jobResp.Job.EstimatedPrintTime)]);
    [any] is the dynamic type [interface{}] of the spool mapping. *)
Class GoRuntime := {
  float64 : Type;
  float64_to_int : float64 -> Z;
  any : Type
}.

(** Go's [error] values, by where the sources create them. *)
Inductive error : Type :=
| LibError (msg : string)
    (** returned by [json.Marshal], [http.NewRequest], [httpClient.Do] or
        [json.Decoder.Decode] *)
| HTTPError (StatusCode : Z) (body : string)
    (** [fmt.Errorf("HTTP %d: %s", resp.StatusCode, string(body))] *)
| APIError (msg : string).
    (** [fmt.Errorf("API error: %s", response.Error)] *)

(** [err.Error()] *)
Definition error_Error (err : error) : string :=
  match err with
  | LibError msg => msg
  | HTTPError code body => "HTTP " +:+ Sprintf_d code +:+ ": " +:+ body
  | APIError msg => "API error: " +:+ msg
  end.

(** A Go result pair [(T, error)] of which one side is meaningful. *)
Inductive Result (T : Type) : Type :=
| Ok (v : T)
| Err (err : error).
Arguments Ok {T} v.
Arguments Err {T} err.

(** [encoding/json]: decoding a response body into a value of type [T]. *)
Class JSONDecode (T : Type) := json_Decode : string -> Result T.

(** ** Package [net/http], as far as the client uses it *)

Module http.

Inductive JSONValue : Type :=
| JString (s : string)
| JInt (n : Z).

(** A request as [newRequest] builds it: method, URL, the [X-Api-Key]
    header and the payload that is marshalled into the body. *)
Record Request := {
  Method : string;
  URL : string;
  XApiKey : string;
  Payload : option (gmap string JSONValue)
}.

Record Response := {
  StatusCode : Z;
  Body : string
}.

(** What one round trip yields: [httpClient.Do] returns a response or an
    error (connection failure, timeout). *)
Definition RoundTripper := Request -> Result Response.

End http.

(** ** Package [models] *)

Module models.
Section models.
Context `{GoRuntime}.

Record ProgressInfo := {
  Completion : float64;
  PrintTime : Z;
  PrintTimeLeft : Z;
  EstimatedTotal : Z;
  FileName : string;
  FilamentLength : float64
}.

Record TemperatureInfo := {
  BedActual : float64;
  BedTarget : float64;
  HotendActual : float64;
  HotendTarget : float64
}.

(** Pointer fields are [option]s ([None] is [nil]); [CurrentSpool] is a Go
    map, [None] being the nil map. *)
Record PrinterStatus := {
  ID : string;
  Name : string;
  OctoPrintURL : string;
  Status : string;
  State : string;
  Progress : option ProgressInfo;
  Temperatures : option TemperatureInfo;
  CurrentSpool : option (gmap string any);
  ThumbnailURL : string;
  Error : string
}.

(** Field assignments [status.F = v]. *)
Definition set_Status (v : string) (s : PrinterStatus) : PrinterStatus :=
  {| ID := ID s; Name := Name s; OctoPrintURL := OctoPrintURL s; Status := v;
     State := State s; Progress := Progress s; Temperatures := Temperatures s;
     CurrentSpool := CurrentSpool s; ThumbnailURL := ThumbnailURL s;
     Error := Error s |}.

Definition set_State (v : string) (s : PrinterStatus) : PrinterStatus :=
  {| ID := ID s; Name := Name s; OctoPrintURL := OctoPrintURL s;
     Status := Status s; State := v; Progress := Progress s;
     Temperatures := Temperatures s; CurrentSpool := CurrentSpool s;
     ThumbnailURL := ThumbnailURL s; Error := Error s |}.

Definition set_Progress (v : option ProgressInfo) (s : PrinterStatus) : PrinterStatus :=
  {| ID := ID s; Name := Name s; OctoPrintURL := OctoPrintURL s;
     Status := Status s; State := State s; Progress := v;
     Temperatures := Temperatures s; CurrentSpool := CurrentSpool s;
     ThumbnailURL := ThumbnailURL s; Error := Error s |}.

Definition set_Temperatures (v : option TemperatureInfo) (s : PrinterStatus) : PrinterStatus :=
  {| ID := ID s; Name := Name s; OctoPrintURL := OctoPrintURL s;
     Status := Status s; State := State s; Progress := Progress s;
     Temperatures := v; CurrentSpool := CurrentSpool s;
     ThumbnailURL := ThumbnailURL s; Error := Error s |}.

Definition set_CurrentSpool (v : option (gmap string any)) (s : PrinterStatus) : PrinterStatus :=
  {| ID := ID s; Name := Name s; OctoPrintURL := OctoPrintURL s;
     Status := Status s; State := State s; Progress := Progress s;
     Temperatures := Temperatures s; CurrentSpool := v;
     ThumbnailURL := ThumbnailURL s; Error := Error s |}.

Definition set_ThumbnailURL (v : string) (s : PrinterStatus) : PrinterStatus :=
  {| ID := ID s; Name := Name s; OctoPrintURL := OctoPrintURL s;
     Status := Status s; State := State s; Progress := Progress s;
     Temperatures := Temperatures s; CurrentSpool := CurrentSpool s;
     ThumbnailURL := v; Error := Error s |}.

Definition set_Error (v : string) (s : PrinterStatus) : PrinterStatus :=
  {| ID := ID s; Name := Name s; OctoPrintURL := OctoPrintURL s;
     Status := Status s; State := State s; Progress := Progress s;
     Temperatures := Temperatures s; CurrentSpool := CurrentSpool s;
     ThumbnailURL := ThumbnailURL s; Error := v |}.

(** [FormatDuration]: Go's [/] and [%] on [int] truncate towards zero
    ([Z.quot], [Z.rem]); the three [fmt.Sprintf] formats are ["%dh %dm %ds"],
    ["%dm %ds"] and ["%ds"]. *)
Definition FormatDuration (seconds : Z) : string :=
  if (seconds <=? 0)%Z then "--:--:--"
  else
    let hours := Z.quot seconds 3600 in
    let minutes := Z.quot (Z.rem seconds 3600) 60 in
    let secs := Z.rem seconds 60 in
    if (0 <? hours)%Z then
      Sprintf_d hours +:+ "h " +:+ Sprintf_d minutes +:+ "m "
        +:+ Sprintf_d secs +:+ "s"
    else if (0 <? minutes)%Z then
      Sprintf_d minutes +:+ "m " +:+ Sprintf_d secs +:+ "s"
    else Sprintf_d secs +:+ "s".

End models.
End models.

(** ** Package [config]: the fields of [config.Printer] and [config.Config]
    that the handler reads *)

Module config.

Record Printer := {
  ID : string;
  Name : string;
  OctoPrintURL : string;
  APIKey : string
}.

Record Config := {
  Printers : list Printer;
  SpoolmanURL : string
}.

End config.

(** ** Package [octoprint]: the client of one printer controller *)

Module octoprint.
Section octoprint.
Context `{GoRuntime}.

(** The [httpClient] field (a [http.Client] with a 10 second timeout) is
    part of the network below: a timeout is one of the errors of [Do]. *)
Record Client := {
  baseURL : string;
  apiKey : string
}.

Definition NewClient (baseURL apiKey : string) : Client :=
  {| baseURL := baseURL; apiKey := apiKey |}.

Record StateFlags := {
  Operational : bool;
  Paused : bool;
  Printing : bool;
  Error : bool;
  Ready : bool
}.

Record PrinterState := {
  Text : string;
  Flags : StateFlags
}.

Record TemperatureData := {
  Actual : float64;
  Target : float64
}.

Record TemperatureReadings := {
  Bed : TemperatureData;
  Tool0 : TemperatureData
}.

Record PrinterResponse := {
  State : PrinterState;
  Temperature : TemperatureReadings
}.

Record JobFile := {
  Name : string;
  Size : Z;
  Date : Z;
  Path : string;
  Display : string
}.

Record FilamentUse := {
  Length : float64;
  Volume : float64
}.

(** [Job.Filament], whose only field is [Tool0]. *)
Record JobFilament := {
  Tool0' : FilamentUse
}.

Record JobInfo := {
  File : JobFile;
  EstimatedPrintTime : float64;
  LastPrintTime : float64;
  Filament : JobFilament
}.

Record JobProgress := {
  Completion : float64;
  Filepos : Z;
  PrintTime : Z;
  PrintTimeLeft : Z;
  PrintTimeOrigin : string
}.

(** [State'] is the [State] field of [JobResponse]. *)
Record JobResponse := {
  Job : JobInfo;
  Progress : JobProgress;
  State' : string
}.

(** The anonymous response struct of [GetCurrentSpool]; [Error'] is its
    [Error] field. *)
Record SpoolResponse := {
  Success : bool;
  SpoolID : string;
  Error' : string
}.

Context `{!JSONDecode PrinterResponse} `{!JSONDecode JobResponse}
        `{!JSONDecode SpoolResponse}.

(** The network as one client sees it: whether [http.NewRequest] accepts
    a method and URL, and the outcome of [httpClient.Do]. *)
Record Net := {
  NewRequest : string -> string -> option error;
  Do : http.RoundTripper
}.

(** [newRequest]: marshalling the payloads used here (a map of a string
    and an int) has no error case. *)
Definition newRequest (net : Net) (c : Client) (method path : string)
    (body : option (gmap string http.JSONValue)) : Result http.Request :=
  let url := baseURL c +:+ path in
  match NewRequest net method url with
  | Some err => Err err
  | None =>
      Ok {| http.Method := method; http.URL := url;
            http.XApiKey := apiKey c; http.Payload := body |}
  end.

(** [doRequest], always called with a non-nil [result]. *)
Definition doRequest {T : Type} `{!JSONDecode T} (net : Net)
    (req : http.Request) : Result T :=
  match Do net req with
  | Err err => Err err
  | Ok resp =>
      if (400 <=? http.StatusCode resp)%Z
      then Err (HTTPError (http.StatusCode resp) (http.Body resp))
      else json_Decode (http.Body resp)
  end.

Definition GetPrinterState (net : Net) (c : Client) : Result PrinterResponse :=
  match newRequest net c "GET" "/api/printer" None with
  | Err err => Err err
  | Ok req => doRequest net req
  end.

Definition GetJob (net : Net) (c : Client) : Result JobResponse :=
  match newRequest net c "GET" "/api/job" None with
  | Err err => Err err
  | Ok req => doRequest net req
  end.

(** The [payload] map of [GetCurrentSpool]. *)
Definition spoolPayload (tool : Z) : gmap string http.JSONValue :=
  <["command" := http.JString "get_current_spool"]>
    (<["tool" := http.JInt tool]> ∅).

Definition GetCurrentSpool (net : Net) (c : Client) (tool : Z) : Result string :=
  let payload := spoolPayload tool in
  match newRequest net c "POST" "/api/plugin/spoolman_api" (Some payload) with
  | Err err => Err err
  | Ok req =>
      match doRequest (T := SpoolResponse) net req with
      | Err err => Err err
      | Ok response =>
          if negb (Success response)
          then Err (APIError (Error' response))
          else Ok (SpoolID response)
      end
  end.

(** [fmt.Sprintf("%s/plugin/prusaslicerthumbnails/thumbnail/%s.png", ..)] *)
Definition thumbnailFormat (base fileName : string) : string :=
  base +:+ "/plugin/prusaslicerthumbnails/thumbnail/" +:+ fileName +:+ ".png".

Definition GetThumbnail (c : Client) (path : string) : string :=
  if String.eqb path "" then ""
  else
    let fileName := path in
    let fileName := GoStrings.TrimSuffix fileName ".gcode" in
    let fileName := GoStrings.TrimSuffix fileName ".bgcode" in
    thumbnailFormat (baseURL c) fileName.

End octoprint.
End octoprint.

(** ** Package [spoolman]

    The package is not among the sources.  Its types, its constructor and
    [FormatSpoolInfo] are parameters; its one network call, [GetSpool], is
    part of the [World] of the handler. *)
Class Spoolman `{GoRuntime} := {
  Spool : Type;
  SpoolmanClient : Type;
  spoolman_NewClient : string -> SpoolmanClient;
  FormatSpoolInfo : Spool -> option (gmap string any)
}.

(** ** Package [handlers] *)

Module handlers.
Section handlers.
Context `{GoRuntime} `{!Spoolman}.
Context `{!JSONDecode octoprint.PrinterResponse}
        `{!JSONDecode octoprint.JobResponse}
        `{!JSONDecode octoprint.SpoolResponse}.

Record Handler := {
  config : config.Config;
  octoprintClients : gmap string octoprint.Client;
  spoolmanClient : SpoolmanClient
}.

(** [NewHandler], from the configuration that [config.LoadConfig] returned:
    one client per printer, stored under the printer's ID in list order. *)
Definition NewHandler (cfg : config.Config) : Handler :=
  {| config := cfg;
     octoprintClients :=
       foldl (fun clients printer =>
                <[config.ID printer :=
                    octoprint.NewClient (config.OctoPrintURL printer)
                                        (config.APIKey printer)]> clients)
             ∅ (config.Printers cfg);
     spoolmanClient := spoolman_NewClient (config.SpoolmanURL cfg) |}.

(** Everything outside the process during one poll: the printers' network
    and the inventory service behind [spoolmanClient.GetSpool], which
    returns a [*Spool] and an error. *)
Record World := {
  net : octoprint.Net;
  GetSpool : SpoolmanClient -> string -> Result (option Spool)
}.

(** The upstream calls of a pipeline, as [fetchPrinterStatus] issues them. *)
Inductive Call : Type :=
| CallGetPrinterState (client : octoprint.Client)
| CallGetJob (client : octoprint.Client)
| CallGetCurrentSpool (client : octoprint.Client) (tool : Z)
| CallGetSpool (client : SpoolmanClient) (spoolID : string).

(** A pipeline computes a value and extends the log of the calls made. *)
Definition Pipeline (A : Type) : Type := list Call -> A * list Call.

Definition ret {A : Type} (a : A) : Pipeline A := fun log => (a, log).

Definition bind {A B : Type} (m : Pipeline A) (k : A -> Pipeline B) : Pipeline B :=
  fun log => let (a, log') := m log in k a log'.

(** Issue the call [c], whose outcome in this world is [a]. *)
Definition perform {A : Type} (c : Call) (a : A) : Pipeline A :=
  fun log => (a, log ++ [c]).

Notation "x <- m ;; k" := (bind m (fun x => k))
  (at level 100, m at next level, right associativity).

Definition fetchPrinterStatus (h : Handler) (w : World)
    (printer : config.Printer) : Pipeline models.PrinterStatus :=
  let status :=
    {| models.ID := config.ID printer;
       models.Name := config.Name printer;
       models.OctoPrintURL := config.OctoPrintURL printer;
       models.Status := "offline";
       models.State := "";
       models.Progress := None;
       models.Temperatures := None;
       models.CurrentSpool := None;
       models.ThumbnailURL := "";
       models.Error := "" |} in
  match octoprintClients h !! config.ID printer with
  | None => ret (models.set_Error "No client configured" status)
  | Some client =>
      (* Fetch printer state and temperatures *)
      r <- perform (CallGetPrinterState client)
             (octoprint.GetPrinterState (net w) client) ;;
      match r with
      | Err err =>
          (* the error is also written to the process log *)
          ret (models.set_Error (error_Error err) status)
      | Ok printerResp =>
          let flags := octoprint.Flags (octoprint.State printerResp) in
          (* Set basic status *)
          let status :=
            if octoprint.Printing flags then models.set_Status "printing" status
            else if octoprint.Ready flags then models.set_Status "idle" status
            else if octoprint.Error flags then models.set_Status "error" status
            else status in
          let status :=
            models.set_State (octoprint.Text (octoprint.State printerResp)) status in
          (* Set temperatures *)
          let temperature := octoprint.Temperature printerResp in
          let status :=
            models.set_Temperatures
              (Some {| models.BedActual := octoprint.Actual (octoprint.Bed temperature);
                       models.BedTarget := octoprint.Target (octoprint.Bed temperature);
                       models.HotendActual := octoprint.Actual (octoprint.Tool0 temperature);
                       models.HotendTarget := octoprint.Target (octoprint.Tool0 temperature) |})
              status in
          (* If printing, fetch job info *)
          status <-
            (if String.eqb (models.Status status) "printing" then
               j <- perform (CallGetJob client) (octoprint.GetJob (net w) client) ;;
               match j with
               | Ok jobResp =>
                   let job := octoprint.Job jobResp in
                   let progress := octoprint.Progress jobResp in
                   let status :=
                     models.set_Progress
                       (Some {| models.Completion := octoprint.Completion progress;
                                models.PrintTime := octoprint.PrintTime progress;
                                models.PrintTimeLeft := octoprint.PrintTimeLeft progress;
                                models.EstimatedTotal :=
                                  float64_to_int (octoprint.EstimatedPrintTime job);
                                models.FileName := octoprint.Display (octoprint.File job);
                                models.FilamentLength :=
                                  octoprint.Length (octoprint.Tool0' (octoprint.Filament job)) |})
                       status in
                   (* Get thumbnail URL *)
                   let path := octoprint.Path (octoprint.File job) in
                   if negb (String.eqb path "")
                   then ret (models.set_ThumbnailURL
                               (octoprint.GetThumbnail client path) status)
                   else ret status
               | Err _ => ret status
               end
             else ret status) ;;
          (* Fetch current spool *)
          s <- perform (CallGetCurrentSpool client 0)
                 (octoprint.GetCurrentSpool (net w) client 0) ;;
          match s with
          | Ok spoolID =>
              if negb (String.eqb spoolID "") then
                sp <- perform (CallGetSpool (spoolmanClient h) spoolID)
                        (GetSpool w (spoolmanClient h) spoolID) ;;
                match sp with
                | Ok (Some spool) =>
                    ret (models.set_CurrentSpool (FormatSpoolInfo spool) status)
                | _ => ret status
                end
              else ret status
          | Err _ => ret status
          end
      end
  end.

(** The record one goroutine of [handleStatus] sends, and the calls it made. *)
Definition pipeline (h : Handler) (w : World) (p : config.Printer)
    : models.PrinterStatus * list Call :=
  fetchPrinterStatus h w p [].

(** The JSON object [handleStatus] encodes. *)
Record StatusResponse := {
  status : string;
  printers : list models.PrinterStatus
}.

(** The records of a list of printers, in the order of the list. *)
Definition records (h : Handler) (w : World) (ps : list config.Printer)
    : list models.PrinterStatus :=
  map (fun p => fst (pipeline h w p)) ps.

(** [handleStatus] starts one goroutine per configured printer; each runs
    [fetchPrinterStatus] and sends its record on [statusChan], whose
    capacity is the number of printers, so no send blocks.  [running] are
    the goroutines that have not sent yet. *)
Record PollState := {
  running : list config.Printer;
  statusChan : list models.PrinterStatus
}.

(** Any running goroutine may be the next one to send. *)
Inductive send (h : Handler) (w : World) : PollState -> PollState -> Prop :=
| send_next (before : list config.Printer) (p : config.Printer)
    (after : list config.Printer) (ch : list models.PrinterStatus) :
    send h w {| running := before ++ p :: after; statusChan := ch |}
             {| running := before ++ after;
                statusChan := ch ++ [fst (pipeline h w p)] |}.

(** [wg.Wait()] returns when no goroutine is running; the channel is then
    closed and drained in order into [printers]. *)
Definition handleStatus_returns (h : Handler) (w : World)
    (resp : StatusResponse) : Prop :=
  exists ch,
    rtc (send h w)
        {| running := config.Printers (config h); statusChan := [] |}
        {| running := []; statusChan := ch |}
    /\ resp = {| status := "ok"; printers := ch |}.

(** The same, run under a schedule: [sched] names, round by round, which
    of the running goroutines sends next (an index into [running], taken
    modulo their number). *)
Fixpoint drain (h : Handler) (w : World) (rounds : nat) (sched : list nat)
    (running : list config.Printer) (ch : list models.PrinterStatus)
    : list models.PrinterStatus :=
  match rounds with
  | O => ch
  | S rounds' =>
      let i := hd 0 sched mod length running in
      match running !! i with
      | None => ch
      | Some p =>
          drain h w rounds' (tl sched) (delete i running)
                (ch ++ [fst (pipeline h w p)])
      end
  end.

Definition handleStatus (h : Handler) (w : World) (sched : list nat)
    : StatusResponse :=
  let printers := config.Printers (config h) in
  {| status := "ok";
     printers := drain h w (length printers) sched printers [] |}.

(** The slice [printers] that [handleDashboard] prepares for the page: one
    [map[string]string] per configured printer, in order.  It is marshalled
    into the page as the script constant [PRINTERS]; the template around it
    is not modelled. *)
Definition handleDashboard_printers (h : Handler) : list (gmap string string) :=
  map (fun p =>
         <["id" := config.ID p]>
           (<["name" := config.Name p]>
              (<["octoprint_url" := config.OctoPrintURL p]> ∅)))
      (config.Printers (config h)).

End handlers.
End handlers.

(** ** The dashboard page: [web/static/app.js]

    The page keeps a list of printer objects, first the entries of
    [PRINTERS], later the status objects of [/api/status].  An object is
    represented by the Go value it was marshalled from, and a string by the
    Go string: names, IDs and status words are text, which JSON carries
    unchanged. *)

Module app.
Section app.
Context `{GoRuntime}.

Inductive Card : Type :=
| ConfigCard (entry : gmap string string)
| StatusCard (st : models.PrinterStatus).

(** [printer.id]: a string, or [undefined] ([None]) when an entry of
    [PRINTERS] has no such key. *)
Definition card_id (c : Card) : option string :=
  match c with
  | ConfigCard entry => entry !! "id"
  | StatusCard st => Some (models.ID st)
  end.

(** [data.printers.find(p => p.id === printer.id)] *)
Definition find_updated (data : list models.PrinterStatus) (printer : Card)
    : option models.PrinterStatus :=
  List.find (fun p => bool_decide (Some (models.ID p) = card_id printer)) data.

(** [this.printers.map(printer => updated || printer)]: a status object is
    truthy, so [updated] is taken whenever [find] returned one. *)
Definition merge (printers : list Card) (data : list models.PrinterStatus)
    : list Card :=
  map (fun printer =>
         match find_updated data printer with
         | Some updated => StatusCard updated
         | None => printer
         end)
      printers.

(** The part of the Alpine component that [init] and [fetchStatus] touch. *)
Record Dashboard := {
  loading : bool;
  error : option string;
  printers : list Card
}.

(** What [fetchStatus] gets from [fetch('/api/status')]: an exception
    (network failure, a response that is not [ok], a body that is not JSON),
    or the parsed [data], whose [printers] may be missing. *)
Inductive FetchResult : Type :=
| FetchFailed
| FetchData (printers : option (list models.PrinterStatus)).

Definition fetchStatus (d : Dashboard) (r : FetchResult) : Dashboard :=
  match r with
  | FetchData (Some data) =>
      {| loading := loading d; error := error d;
         printers := merge (printers d) data |}
  | FetchData None => d
  | FetchFailed =>
      if loading d
      then {| loading := loading d;
              error := Some "Failed to connect to printers";
              printers := printers d |}
      else d
  end.

(** [init]: the printers of [PRINTERS], one awaited [fetchStatus], then
    [loading = false]. *)
Definition init (PRINTERS : list (gmap string string)) (r : FetchResult)
    : Dashboard :=
  let d := fetchStatus {| loading := true; error := None;
                          printers := map ConfigCard PRINTERS |} r in
  {| loading := false; error := error d; printers := printers d |}.

(** The polls that the one-second interval starts after [init]. *)
Definition polls (d : Dashboard) (rs : list FetchResult) : Dashboard :=
  foldl fetchStatus d rs.

(** The own properties of [statusMap] in [formatStatus]. *)
Definition statusMap : gmap string string :=
  <["idle" := "Ready"]>
    (<["printing" := "Printing"]>
       (<["error" := "Error"]>
          (<["offline" := "Offline"]> ∅))).

(** A value [formatStatus] can return: a string, or what a property
    inherited from [Object.prototype] holds. *)
Inductive StatusLabel : Type :=
| Label (text : string)
| Inherited (name : string).

(** [statusMap[status] || status || 'Unknown']: an own property wins; a name
    that [Object.prototype] defines ([inherited]) yields that property's
    value, a function or an object, which is truthy; the empty string is
    falsy. *)
Definition formatStatus (inherited : string -> bool) (status : string)
    : StatusLabel :=
  match statusMap !! status with
  | Some label => Label label
  | None =>
      if inherited status then Inherited status
      else if String.eqb status "" then Label "Unknown"
      else Label status
  end.

End app.
End app.

(** ** The claim on thumbnail paths, as the specification words it

    "strips a trailing .gcode or .bgcode extension": at most one extension is
    removed, whichever of the two the path ends in. *)
Definition strip_trailing_extension (path : string) : string :=
  if GoStrings.HasSuffix path ".gcode" then GoStrings.TrimSuffix path ".gcode"
  else if GoStrings.HasSuffix path ".bgcode" then GoStrings.TrimSuffix path ".bgcode"
  else path.

(** ** A concrete installation: three printers and two states of the network *)

Module Example.

(** Readings are whole numbers here; the spool mapping holds strings. *)
Definition runtime : GoRuntime :=
  {| float64 := Z; float64_to_int := fun f => f; any := string |}.

Definition inventory : @Spoolman runtime :=
  {| Spool := string;
     SpoolmanClient := string;
     spoolman_NewClient := fun url => url;
     FormatSpoolInfo := fun spool => Some (<["name" := spool]> ∅) |}.

Section data.
Local Open Scope Z_scope.
#[local] Existing Instance runtime.
#[local] Existing Instance inventory.

Definition reading (actual target : Z) : octoprint.TemperatureData :=
  {| octoprint.Actual := actual; octoprint.Target := target |}.

Definition state (text : string) (printing error ready : bool)
    : octoprint.PrinterResponse :=
  {| octoprint.State :=
       {| octoprint.Text := text;
          octoprint.Flags :=
            {| octoprint.Operational := true; octoprint.Paused := false;
               octoprint.Printing := printing; octoprint.Error := error;
               octoprint.Ready := ready |} |};
     octoprint.Temperature :=
       {| octoprint.Bed := reading 60 60; octoprint.Tool0 := reading 214 215 |} |}.

(** Response bodies are abbreviated to a word; anything else is malformed. *)
Definition decodePrinter : JSONDecode octoprint.PrinterResponse :=
  fun body =>
    if String.eqb body "printing+error" then Ok (state "Printing" true true false)
    else if String.eqb body "ready" then Ok (state "Operational" false false true)
    else Err (LibError "unexpected end of JSON input").

Definition benchy : octoprint.JobResponse :=
  {| octoprint.Job :=
       {| octoprint.File :=
            {| octoprint.Name := "benchy.gcode"; octoprint.Size := 1024;
               octoprint.Date := 0; octoprint.Path := "boats/benchy.gcode";
               octoprint.Display := "benchy.gcode" |};
          octoprint.EstimatedPrintTime := 3600;
          octoprint.LastPrintTime := 0;
          octoprint.Filament :=
            {| octoprint.Tool0' :=
                 {| octoprint.Length := 4000; octoprint.Volume := 9 |} |} |};
     octoprint.Progress :=
       {| octoprint.Completion := 25; octoprint.Filepos := 256;
          octoprint.PrintTime := 900; octoprint.PrintTimeLeft := 2700;
          octoprint.PrintTimeOrigin := "estimate" |};
     octoprint.State' := "Printing" |}.

Definition decodeJob : JSONDecode octoprint.JobResponse :=
  fun body =>
    if String.eqb body "benchy" then Ok benchy
    else Err (LibError "unexpected end of JSON input").

Definition decodeSpool : JSONDecode octoprint.SpoolResponse :=
  fun body =>
    if String.eqb body "spool 7" then
      Ok {| octoprint.Success := true; octoprint.SpoolID := "7";
            octoprint.Error' := "" |}
    else if String.eqb body "no spool" then
      Ok {| octoprint.Success := true; octoprint.SpoolID := "";
            octoprint.Error' := "" |}
    else if String.eqb body "unknown tool" then
      Ok {| octoprint.Success := false; octoprint.SpoolID := "";
            octoprint.Error' := "unknown tool" |}
    else Err (LibError "unexpected end of JSON input").

#[local] Existing Instance decodePrinter.
#[local] Existing Instance decodeJob.
#[local] Existing Instance decodeSpool.

Definition mk4 : config.Printer :=
  {| config.ID := "mk4"; config.Name := "Prusa MK4";
     config.OctoPrintURL := "http://mk4"; config.APIKey := "k1" |}.

Definition mini : config.Printer :=
  {| config.ID := "mini"; config.Name := "Prusa Mini";
     config.OctoPrintURL := "http://mini"; config.APIKey := "k2" |}.

Definition xl : config.Printer :=
  {| config.ID := "xl"; config.Name := "Prusa XL";
     config.OctoPrintURL := "http://xl"; config.APIKey := "k3" |}.

Definition cfg : config.Config :=
  {| config.Printers := [mk4; mini; xl];
     config.SpoolmanURL := "http://spoolman" |}.

Definition h : handlers.Handler := handlers.NewHandler cfg.

(** The clients [NewHandler] creates for them. *)
Definition mk4_client : octoprint.Client := octoprint.NewClient "http://mk4" "k1".
Definition mini_client : octoprint.Client := octoprint.NewClient "http://mini" "k2".
Definition xl_client : octoprint.Client := octoprint.NewClient "http://xl" "k3".

(** A handler whose client map lacks the one configured printer. *)
Definition h_unmapped : handlers.Handler :=
  {| handlers.config :=
       {| config.Printers := [mk4]; config.SpoolmanURL := "http://spoolman" |};
     handlers.octoprintClients := ∅;
     handlers.spoolmanClient := "http://spoolman" |}.

Definition reply (code : Z) (body : string) : Result http.Response :=
  Ok {| http.StatusCode := code; http.Body := body |}.

(** The MK4 prints with its error flag raised, its job endpoint times out
    and its spool plugin reports a failure; the Mini answers 503; the XL
    is idle without a spool. *)
Definition Do (req : http.Request) : Result http.Response :=
  let url := http.URL req in
  if String.eqb url "http://mk4/api/printer" then reply 200 "printing+error"
  else if String.eqb url "http://mk4/api/job" then
    Err (LibError "context deadline exceeded")
  else if String.eqb url "http://mk4/api/plugin/spoolman_api" then
    reply 200 "unknown tool"
  else if String.eqb url "http://mini/api/printer" then reply 503 "starting"
  else if String.eqb url "http://xl/api/printer" then reply 200 "ready"
  else if String.eqb url "http://xl/api/plugin/spoolman_api" then
    reply 200 "no spool"
  else Err (LibError "connection refused").

Definition w : handlers.World :=
  {| handlers.net := {| octoprint.NewRequest := fun _ _ => None; octoprint.Do := Do |};
     handlers.GetSpool := fun _ _ => Err (LibError "connection refused") |}.

(** The same network, except that the MK4's spool steps succeed. *)
Definition Do_spool (req : http.Request) : Result http.Response :=
  if String.eqb (http.URL req) "http://mk4/api/plugin/spoolman_api"
  then reply 200 "spool 7"
  else Do req.

Definition w_spool : handlers.World :=
  {| handlers.net :=
       {| octoprint.NewRequest := fun _ _ => None; octoprint.Do := Do_spool |};
     handlers.GetSpool :=
       fun _ spoolID =>
         if String.eqb spoolID "7" then Ok (Some "PLA black")
         else Err (LibError "connection refused") |}.

(** The same network, except that the MK4's job endpoint answers. *)
Definition Do_job (req : http.Request) : Result http.Response :=
  if String.eqb (http.URL req) "http://mk4/api/job"
  then reply 200 "benchy"
  else Do req.

Definition w_job : handlers.World :=
  {| handlers.net :=
       {| octoprint.NewRequest := fun _ _ => None; octoprint.Do := Do_job |};
     handlers.GetSpool := fun _ _ => Err (LibError "connection refused") |}.

(** A second printer configured under the MK4's ID. *)
Definition mk4_twin : config.Printer :=
  {| config.ID := "mk4"; config.Name := "Second MK4";
     config.OctoPrintURL := "http://mk4b"; config.APIKey := "k4" |}.

Definition cfg_twins : config.Config :=
  {| config.Printers := [mk4; mini; mk4_twin];
     config.SpoolmanURL := "http://spoolman" |}.

Definition h_twins : handlers.Handler := handlers.NewHandler cfg_twins.

End data.
End Example.

(** * Properties *)

(** ** Facts on [substring] and [+:+] needed for the suffix functions *)

Lemma string_length_app (s t : string) :
  String.length (s +:+ t) = String.length s + String.length t.
Proof. induction s as [|a s IH]; simpl; [reflexivity | now rewrite IH]. Qed.

Lemma substring_all (s : string) : substring 0 (String.length s) s = s.
Proof. induction s as [|a s IH]; simpl; [reflexivity | now rewrite IH]. Qed.

Lemma substring_prefix_app (s t : string) :
  substring 0 (String.length s) (s +:+ t) = s.
Proof.
  induction s as [|a s IH]; simpl.
  - now destruct t.
  - now rewrite IH.
Qed.

Lemma substring_skip_app (s t : string) (n m : nat) :
  substring (String.length s + n) m (s +:+ t) = substring n m t.
Proof. induction s as [|a s IH]; simpl; [reflexivity | apply IH]. Qed.

Lemma substring_split (s : string) (n : nat) :
  n <= String.length s ->
  substring 0 n s +:+ substring n (String.length s - n) s = s.
Proof.
  revert n; induction s as [|a s IH]; intros [|n] Hn; simpl in *; try lia.
  - reflexivity.
  - now rewrite substring_all.
  - transitivity (String a (substring 0 n s +:+ substring n (String.length s - n) s));
      [reflexivity | now rewrite IH by lia].
Qed.

Lemma string_app_nonempty (s t : string) : t <> "" -> s +:+ t <> "".
Proof.
  intros Ht E. destruct s as [|a s].
  - exact (Ht E).
  - change (String a (s +:+ t) = "") in E. discriminate.
Qed.

Lemma string_app_assoc (s t u : string) : (s +:+ t) +:+ u = s +:+ (t +:+ u).
Proof.
  induction s as [|a s IH]; [reflexivity |].
  change (String a ((s +:+ t) +:+ u) = String a (s +:+ (t +:+ u))).
  now rewrite IH.
Qed.

Module GoStringsFacts.
Import GoStrings.

Lemma HasSuffix_app (s suffix : string) : HasSuffix (s +:+ suffix) suffix = true.
Proof.
  unfold HasSuffix. rewrite string_length_app.
  apply andb_true_intro; split.
  - apply Nat.leb_le; lia.
  - replace (String.length s + String.length suffix - String.length suffix)
      with (String.length s + 0) by lia.
    rewrite substring_skip_app, substring_all. apply String.eqb_refl.
Qed.

Lemma TrimSuffix_app (s suffix : string) : TrimSuffix (s +:+ suffix) suffix = s.
Proof.
  unfold TrimSuffix. rewrite HasSuffix_app, string_length_app.
  replace (String.length s + String.length suffix - String.length suffix)
    with (String.length s) by lia.
  apply substring_prefix_app.
Qed.

Lemma TrimSuffix_absent (s suffix : string) :
  HasSuffix s suffix = false -> TrimSuffix s suffix = s.
Proof. unfold TrimSuffix; now intros ->. Qed.

Lemma HasSuffix_inv (s suffix : string) :
  HasSuffix s suffix = true -> s = TrimSuffix s suffix +:+ suffix.
Proof.
  intros H. unfold TrimSuffix. rewrite H.
  unfold HasSuffix in H. apply andb_prop in H as [Hlen Heq].
  apply Nat.leb_le in Hlen. apply String.eqb_eq in Heq.
  pose proof (substring_split s (String.length s - String.length suffix)) as Hs.
  replace (String.length s - (String.length s - String.length suffix))
    with (String.length suffix) in Hs by lia.
  rewrite Heq in Hs. symmetry. apply Hs. lia.
Qed.

(** The last [length suffix] bytes of [s +:+ t] are those of [t] alone when
    [t] is at least as long as the suffix. *)
Lemma HasSuffix_app_long (s t suffix : string) :
  String.length suffix <= String.length t ->
  HasSuffix (s +:+ t) suffix = HasSuffix t suffix.
Proof.
  intros Hlen. unfold HasSuffix. rewrite string_length_app.
  replace (String.length s + String.length t - String.length suffix)
    with (String.length s + (String.length t - String.length suffix)) by lia.
  rewrite substring_skip_app.
  f_equal. transitivity true; [| symmetry]; apply Nat.leb_le; lia.
Qed.

End GoStringsFacts.

(** ** Error messages *)

(** Errors the sources build themselves always carry a message; an error
    handed over by a library carries the library's message. *)
Lemma error_Error_nonempty (err : error) :
  (forall msg, err = LibError msg -> msg <> "") -> error_Error err <> "".
Proof.
  destruct err as [msg|code body|msg]; intros Hlib.
  - now apply Hlib.
  - discriminate.
  - discriminate.
Qed.

(** ** One pipeline: [fetchPrinterStatus] *)

Section pipeline_facts.
Context `{GoRuntime} `{!Spoolman}.
Context `{!JSONDecode octoprint.PrinterResponse}
        `{!JSONDecode octoprint.JobResponse}
        `{!JSONDecode octoprint.SpoolResponse}.
Import handlers.

Implicit Types (h : Handler) (w : World) (p : config.Printer).

#[local] Arguments octoprint.GetPrinterState : simpl never.
#[local] Arguments octoprint.GetJob : simpl never.
#[local] Arguments octoprint.GetCurrentSpool : simpl never.
#[local] Arguments octoprint.GetThumbnail : simpl never.

(** Unfold a pipeline down to the outcomes of its upstream calls. *)
Ltac unfold_pipeline :=
  unfold pipeline, fetchPrinterStatus, bind, perform, ret in *.

(** Split on the next outcome the pipeline depends on, in program order. *)
Ltac next_outcome :=
  match goal with
  | |- context [octoprintClients ?h !! ?k] =>
      destruct (octoprintClients h !! k) eqn:?
  | |- context [octoprint.GetPrinterState ?n ?c] =>
      destruct (octoprint.GetPrinterState n c) eqn:?
  | |- context [octoprint.Printing ?f] => destruct (octoprint.Printing f) eqn:?
  | |- context [octoprint.Ready ?f] => destruct (octoprint.Ready f) eqn:?
  | |- context [octoprint.Error ?f] => destruct (octoprint.Error f) eqn:?
  | |- context [octoprint.GetJob ?n ?c] =>
      destruct (octoprint.GetJob n c) eqn:?
  | |- context [String.eqb (octoprint.Path ?f) ""] =>
      destruct (String.eqb (octoprint.Path f) "") eqn:?
  | |- context [octoprint.GetCurrentSpool ?n ?c ?t] =>
      destruct (octoprint.GetCurrentSpool n c t) as [[|? ?]|] eqn:?
  | |- context [GetSpool ?w ?c ?i] =>
      destruct (GetSpool w c i) as [[|]|] eqn:?
  end; simpl.

Ltac split_outcomes := repeat next_outcome.

(** C9: on every path through the pipeline (success, state-fetch failure,
    missing client mapping, job or spool failure) the record's id, name and
    base URL are those of the printer's configuration. *)
Theorem fetchPrinterStatus_identity h w p :
  models.ID (fst (pipeline h w p)) = config.ID p /\
  models.Name (fst (pipeline h w p)) = config.Name p /\
  models.OctoPrintURL (fst (pipeline h w p)) = config.OctoPrintURL p.
Proof.
  unfold_pipeline. split_outcomes; auto.
Qed.

(** C2: the raw flags are examined in a fixed order and the first one set
    decides the status: printing, else ready ("idle"), else error, else the
    default "offline"; so a printer flagged both printing and error is
    reported as printing.  The four cases cover every combination. *)
Theorem fetchPrinterStatus_classification h w p client printerResp :
  octoprintClients h !! config.ID p = Some client ->
  octoprint.GetPrinterState (net w) client = Ok printerResp ->
  let flags := octoprint.Flags (octoprint.State printerResp) in
  let status := models.Status (fst (pipeline h w p)) in
  (octoprint.Printing flags = true -> status = "printing") /\
  (octoprint.Printing flags = false -> octoprint.Ready flags = true ->
   status = "idle") /\
  (octoprint.Printing flags = false -> octoprint.Ready flags = false ->
   octoprint.Error flags = true -> status = "error") /\
  (octoprint.Printing flags = false -> octoprint.Ready flags = false ->
   octoprint.Error flags = false -> status = "offline").
Proof.
  intros Hclient Hstate flags status. subst flags status.
  unfold_pipeline. rewrite Hclient, Hstate. simpl.
  split_outcomes; repeat split; intros; congruence.
Qed.

(** C3: when the state fetch fails, the record is offline, carries the
    error's message (non-empty for the errors the client builds, and for
    library errors as long as the library's message is), has neither a
    progress nor a temperature block, and the state fetch is the only call
    made: no job fetch and no spool fetch. *)
Theorem fetchPrinterStatus_state_fetch_failure h w p client err :
  octoprintClients h !! config.ID p = Some client ->
  octoprint.GetPrinterState (net w) client = Err err ->
  (forall msg, err = LibError msg -> msg <> "") ->
  let st := fst (pipeline h w p) in
  models.Status st = "offline" /\
  models.Error st = error_Error err /\
  models.Error st <> "" /\
  models.Progress st = None /\
  models.Temperatures st = None /\
  snd (pipeline h w p) = [CallGetPrinterState client].
Proof.
  intros Hclient Hstate Hmsg st. subst st.
  unfold_pipeline. rewrite Hclient, Hstate. simpl.
  repeat split; auto using error_Error_nonempty.
Qed.

(** C6: a printing printer whose job fetch fails keeps status "printing"
    and its temperature block, has no progress block, and no error is
    recorded; and a job fetch appears in the call log only when the record's
    status is "printing". *)
Theorem fetchPrinterStatus_job_fetch_failure h w p :
  (forall client printerResp err,
     octoprintClients h !! config.ID p = Some client ->
     octoprint.GetPrinterState (net w) client = Ok printerResp ->
     octoprint.Printing (octoprint.Flags (octoprint.State printerResp)) = true ->
     octoprint.GetJob (net w) client = Err err ->
     let st := fst (pipeline h w p) in
     let temperature := octoprint.Temperature printerResp in
     models.Status st = "printing" /\
     models.Temperatures st =
       Some {| models.BedActual := octoprint.Actual (octoprint.Bed temperature);
               models.BedTarget := octoprint.Target (octoprint.Bed temperature);
               models.HotendActual := octoprint.Actual (octoprint.Tool0 temperature);
               models.HotendTarget := octoprint.Target (octoprint.Tool0 temperature) |} /\
     models.Progress st = None /\
     models.Error st = "") /\
  (forall client,
     CallGetJob client ∈ snd (pipeline h w p) ->
     models.Status (fst (pipeline h w p)) = "printing").
Proof.
  split.
  - intros client printerResp err Hclient Hstate Hprinting Hjob st temperature.
    subst st temperature.
    unfold_pipeline. rewrite Hclient, Hstate. simpl.
    rewrite Hprinting. simpl. rewrite Hjob. simpl.
    split_outcomes; auto.
  - intros client. unfold_pipeline.
    split_outcomes; rewrite ?elem_of_cons, ?elem_of_nil;
      try reflexivity; intuition discriminate.
Qed.

(** Membership of a call in a log that has been computed. *)
Ltac solve_log :=
  intros; rewrite ?elem_of_cons, ?elem_of_nil in *;
  intuition (try discriminate; try congruence).

(** C7: let the spool-identifier fetch or the inventory lookup fail in
    world [w], and let [w'] be any world that answers the state and job
    fetches as [w] does (for instance one in which the spool steps
    succeed).  The record of [w] has no spool block and agrees with the
    record of [w'] on every other field.  Whenever the state was fetched,
    whatever its flags, the spool identifier is asked of tool 0 of this
    printer's client and of nothing else, the inventory is asked about every
    non-empty identifier obtained, and no error is recorded. *)
Theorem fetchPrinterStatus_spool_failure_frame h w w' p client :
  octoprintClients h !! config.ID p = Some client ->
  octoprint.GetPrinterState (net w') client = octoprint.GetPrinterState (net w) client ->
  octoprint.GetJob (net w') client = octoprint.GetJob (net w) client ->
  ((exists err, octoprint.GetCurrentSpool (net w) client 0 = Err err) \/
   (exists spoolID err,
      octoprint.GetCurrentSpool (net w) client 0 = Ok spoolID /\
      GetSpool w (spoolmanClient h) spoolID = Err err)) ->
  let st := fst (pipeline h w p) in
  let st' := fst (pipeline h w' p) in
  (models.CurrentSpool st = None /\
   models.ID st = models.ID st' /\
   models.Name st = models.Name st' /\
   models.OctoPrintURL st = models.OctoPrintURL st' /\
   models.Status st = models.Status st' /\
   models.State st = models.State st' /\
   models.Temperatures st = models.Temperatures st' /\
   models.Progress st = models.Progress st' /\
   models.ThumbnailURL st = models.ThumbnailURL st' /\
   models.Error st = models.Error st') /\
  (forall printerResp,
     octoprint.GetPrinterState (net w) client = Ok printerResp ->
     CallGetCurrentSpool client 0 ∈ snd (pipeline h w p) /\
     (forall c tool,
        CallGetCurrentSpool c tool ∈ snd (pipeline h w p) ->
        c = client /\ tool = 0%Z) /\
     (forall spoolID,
        octoprint.GetCurrentSpool (net w) client 0 = Ok spoolID ->
        spoolID <> "" ->
        CallGetSpool (spoolmanClient h) spoolID ∈ snd (pipeline h w p)) /\
     models.Error st = "").
Proof.
  intros Hclient Hstate Hjob Hfail st st'. subst st st'. split.
  - unfold_pipeline. rewrite Hclient, Hstate, Hjob. simpl.
    destruct Hfail as [[err Hid]|(spoolID & err & Hid & Hspool)].
    + rewrite Hid. split_outcomes; repeat split; reflexivity.
    + rewrite Hid.
      destruct (octoprint.GetPrinterState (net w) client) eqn:?; simpl;
        [| repeat split; reflexivity].
      destruct (String.eqb spoolID "") eqn:?; simpl; rewrite ?Hspool; simpl;
        split_outcomes; repeat split; reflexivity.
  - intros printerResp Hok. clear Hfail.
    split; [| split; [| split]].
    + unfold_pipeline. rewrite Hclient, Hok. simpl.
      split_outcomes; solve_log.
    + unfold_pipeline. rewrite Hclient, Hok. simpl.
      split_outcomes; solve_log.
    + intros spoolID Hid Hne. apply String.eqb_neq in Hne.
      unfold_pipeline. rewrite Hclient, Hok. simpl.
      rewrite Hid. simpl. rewrite Hne. simpl.
      split_outcomes; solve_log.
    + unfold_pipeline. rewrite Hclient, Hok. simpl.
      split_outcomes; reflexivity.
Qed.

(** C10: when the spool-identifier fetch succeeds with the empty
    identifier, no inventory lookup is in the call log, the record has no
    spool block and no error; and [GetCurrentSpool] returns an error
    whenever the decoded plugin response has [Success = false]. *)
Theorem fetchPrinterStatus_empty_spool_identifier h w p :
  (forall client printerResp,
     octoprintClients h !! config.ID p = Some client ->
     octoprint.GetPrinterState (net w) client = Ok printerResp ->
     octoprint.GetCurrentSpool (net w) client 0 = Ok "" ->
     (forall c spoolID, CallGetSpool c spoolID ∉ snd (pipeline h w p)) /\
     models.CurrentSpool (fst (pipeline h w p)) = None /\
     models.Error (fst (pipeline h w p)) = "") /\
  (forall client tool req response,
     octoprint.newRequest (net w) client "POST" "/api/plugin/spoolman_api"
       (Some (octoprint.spoolPayload tool)) = Ok req ->
     octoprint.doRequest (net w) req = Ok response ->
     octoprint.Success response = false ->
     octoprint.GetCurrentSpool (net w) client tool
       = Err (APIError (octoprint.Error' response))).
Proof.
  split.
  - intros client printerResp Hclient Hstate Hid.
    unfold_pipeline. rewrite Hclient, Hstate. simpl.
    rewrite Hid.
    split_outcomes; (split; [intros c spoolID; solve_log | split; reflexivity]).
  - intros client tool req response Hreq Hdo Hsuccess.
    unfold octoprint.GetCurrentSpool. simpl.
    rewrite Hreq, Hdo, Hsuccess. reflexivity.
Qed.

End pipeline_facts.

(** ** One poll: the goroutines of [handleStatus] *)

Section poll_facts.
Context `{GoRuntime} `{!Spoolman}.
Context `{!JSONDecode octoprint.PrinterResponse}
        `{!JSONDecode octoprint.JobResponse}
        `{!JSONDecode octoprint.SpoolResponse}.
Import handlers.

Implicit Types (h : Handler) (w : World) (p : config.Printer).
Implicit Types (s : PollState) (ch : list models.PrinterStatus).

(** What has been sent together with what is still to be sent is, up to
    order, the same before and after a send. *)
Lemma send_accounts h w s s' :
  send h w s s' ->
  statusChan s' ++ records h w (running s')
    ≡ₚ statusChan s ++ records h w (running s).
Proof.
  intros [before p after ch]. simpl. unfold records.
  rewrite !map_app, map_cons, <- app_assoc. simpl.
  apply Permutation_app_head. apply Permutation_middle.
Qed.

Lemma sends_account h w s s' :
  rtc (send h w) s s' ->
  statusChan s' ++ records h w (running s')
    ≡ₚ statusChan s ++ records h w (running s).
Proof.
  induction 1 as [|s1 s2 s3 Hstep _ IH]; [reflexivity |].
  rewrite IH. now apply send_accounts.
Qed.

(** Every response carries, up to order, exactly the records of the
    configured printers. *)
Lemma handleStatus_returns_Permutation h w resp :
  handleStatus_returns h w resp ->
  status resp = "ok" /\
  printers resp ≡ₚ records h w (config.Printers (config h)).
Proof.
  intros (ch & Hrun & ->). simpl. split; [reflexivity |].
  apply sends_account in Hrun. simpl in Hrun.
  now rewrite app_nil_r in Hrun.
Qed.

Lemma handleStatus_returns_length h w resp :
  handleStatus_returns h w resp ->
  length (printers resp) = length (config.Printers (config h)).
Proof.
  intros Hret. apply handleStatus_returns_Permutation in Hret as [_ Hperm].
  rewrite Hperm. unfold records. apply length_map.
Qed.

(** A schedule drives the goroutines to completion, whatever it is. *)
Lemma drain_sends h w (sched : list nat) (ps : list config.Printer) ch :
  rtc (send h w)
      {| running := ps; statusChan := ch |}
      {| running := []; statusChan := drain h w (length ps) sched ps ch |}.
Proof.
  remember (length ps) as n eqn:Hn.
  revert sched ps ch Hn.
  induction n as [|n IH]; intros sched ps ch Hn.
  - destruct ps; [apply rtc_refl | discriminate].
  - simpl.
    assert (Hlt : hd 0 sched mod length ps < length ps)
      by (apply Nat.mod_upper_bound; lia).
    destruct (lookup_lt_is_Some_2 _ _ Hlt) as [p Hp]. rewrite Hp.
    eapply rtc_l.
    + rewrite <- (take_drop_middle _ _ _ Hp) at 1. apply send_next.
    + rewrite delete_take_drop. apply IH.
      rewrite <- delete_take_drop, length_delete by eauto. lia.
Qed.

(** [handleStatus] returns under every schedule. *)
Lemma handleStatus_sched_returns h w (sched : list nat) :
  handleStatus_returns h w (handleStatus h w sched).
Proof.
  exists (drain h w (length (config.Printers (config h))) sched
                (config.Printers (config h)) []).
  split; [apply drain_sends | reflexivity].
Qed.

(** Conversely every response is the one of some schedule. *)
Lemma sends_drain h w s s' :
  rtc (send h w) s s' -> running s' = [] ->
  exists sched,
    drain h w (length (running s)) sched (running s) (statusChan s)
      = statusChan s'.
Proof.
  induction 1 as [s|s1 s2 s3 Hstep _ IH]; intros Hdone.
  - exists []. now rewrite Hdone.
  - destruct (IH Hdone) as [sched Hsched].
    destruct Hstep as [before p after ch]. simpl in *.
    exists (length before :: sched).
    rewrite length_app. simpl.
    replace (length before + S (length after))
      with (S (length before + length after)) by lia.
    simpl.
    rewrite Nat.mod_small by (rewrite length_app; simpl; lia).
    rewrite list_lookup_middle by reflexivity.
    rewrite delete_take_drop, take_app_length.
    rewrite (cons_middle p before after), app_assoc.
    rewrite drop_app_length'
      by (rewrite length_app; simpl; lia).
    now rewrite <- length_app.
Qed.

Lemma handleStatus_returns_sched h w resp :
  handleStatus_returns h w resp -> exists sched, resp = handleStatus h w sched.
Proof.
  intros (ch & Hrun & ->).
  destruct (sends_drain _ _ _ _ Hrun eq_refl) as [sched Hsched].
  exists sched. unfold handleStatus. simpl in Hsched. now rewrite Hsched.
Qed.

(** When the goroutines happen to send in configuration order, the
    response is in configuration order. *)
Lemma drain_in_order h w (ps : list config.Printer) ch :
  drain h w (length ps) [] ps ch = ch ++ records h w ps.
Proof.
  revert ch; induction ps as [|p ps IH]; intros ch; simpl.
  - now rewrite app_nil_r.
  - rewrite Nat.sub_diag. simpl.
    rewrite IH, <- app_assoc. reflexivity.
Qed.

(** [NewHandler] gives every configured printer a client, so a printer
    without one is not a state [NewHandler] produces. *)
Lemma NewHandler_has_client (cfg : config.Config) p :
  p ∈ config.Printers cfg ->
  is_Some (octoprintClients (NewHandler cfg) !! config.ID p).
Proof.
  unfold NewHandler. simpl.
  generalize (∅ : gmap string octoprint.Client).
  induction (config.Printers cfg) as [|q ps IH]; intros clients Hin.
  - now apply elem_of_nil in Hin.
  - assert (Hkeep : forall (ps' : list config.Printer) (m : gmap string octoprint.Client),
               is_Some (m !! config.ID p) ->
               is_Some (foldl (fun clients printer =>
                          <[config.ID printer :=
                              octoprint.NewClient (config.OctoPrintURL printer)
                                                  (config.APIKey printer)]> clients)
                        m ps' !! config.ID p)).
    { induction ps' as [|r ps' IH']; intros m Hm; simpl; [exact Hm |].
      apply IH'. apply lookup_insert_is_Some'. now right. }
    apply elem_of_cons in Hin as [->|Hin]; simpl.
    + apply Hkeep. apply lookup_insert_is_Some'. now left.
    + now apply IH.
Qed.

(** C4, as the code has it: a configured printer without a client
    mapping does not abort the poll.  Its pipeline makes no upstream call
    and yields an offline record with the error "No client configured" and
    no progress, temperature or spool block; the poll returns, and every
    response has status "ok", contains that record and has one record per
    configured printer. *)
Theorem handleStatus_missing_client h w p :
  p ∈ config.Printers (config h) ->
  octoprintClients h !! config.ID p = None ->
  let record :=
    {| models.ID := config.ID p;
       models.Name := config.Name p;
       models.OctoPrintURL := config.OctoPrintURL p;
       models.Status := "offline";
       models.State := "";
       models.Progress := None;
       models.Temperatures := None;
       models.CurrentSpool := None;
       models.ThumbnailURL := "";
       models.Error := "No client configured" |} in
  pipeline h w p = (record, []) /\
  (exists resp, handleStatus_returns h w resp) /\
  (forall resp,
     handleStatus_returns h w resp ->
     status resp = "ok" /\
     record ∈ printers resp /\
     length (printers resp) = length (config.Printers (config h))).
Proof.
  intros Hin Hnone record.
  assert (Hrecord : pipeline h w p = (record, [])).
  { unfold pipeline, fetchPrinterStatus. now rewrite Hnone. }
  split; [exact Hrecord |]. split.
  - exists (handleStatus h w []). apply handleStatus_sched_returns.
  - intros resp Hret.
    destruct (handleStatus_returns_Permutation _ _ _ Hret) as [Hok Hperm].
    split; [exact Hok |]. split.
    + rewrite Hperm. unfold records.
      apply (list_elem_of_fmap_2' _ _ p); [exact Hin |].
      now rewrite Hrecord.
    + now apply (handleStatus_returns_length h w).
Qed.

End poll_facts.

(** ** Thumbnail URLs *)

Section thumbnail_facts.
Import GoStrings GoStringsFacts.

Implicit Types (c : octoprint.Client) (path : string).

Lemma GetThumbnail_nonempty c path :
  path <> "" ->
  octoprint.GetThumbnail c path =
    octoprint.thumbnailFormat (octoprint.baseURL c)
      (TrimSuffix (TrimSuffix path ".gcode") ".bgcode").
Proof.
  intros Hpath. unfold octoprint.GetThumbnail.
  apply String.eqb_neq in Hpath. now rewrite Hpath.
Qed.

(** A path that ends in ".gcode" after ".bgcode" ends in ".bgcode.gcode". *)
Lemma HasSuffix_both path :
  HasSuffix path ".gcode" = true ->
  HasSuffix (TrimSuffix path ".gcode") ".bgcode" = true ->
  HasSuffix path ".bgcode.gcode" = true.
Proof.
  intros H1 H2.
  apply HasSuffix_inv in H1. apply HasSuffix_inv in H2.
  rewrite H1, H2, string_app_assoc.
  apply (HasSuffix_app _ ".bgcode.gcode").
Qed.

(** The two removals happen in a fixed order: ".gcode" is not removed once
    ".bgcode" has been. *)
Lemma GetThumbnail_gcode_then_bgcode c :
  octoprint.GetThumbnail c "a.gcode.bgcode" =
    octoprint.thumbnailFormat (octoprint.baseURL c) "a.gcode".
Proof. reflexivity. Qed.

(** C8, as the code has it: the derivation is a total function of the
    client's base URL and the path.  The empty path gives the empty string.
    A non-empty path first loses a trailing ".gcode", then what remains
    loses a trailing ".bgcode", and the result is put into the template
    "<base>/plugin/prusaslicerthumbnails/thumbnail/<name>.png".  So
    "p.gcode" gives the template at "p" with a trailing ".bgcode" removed,
    "p.bgcode" gives the template at "p", and on every path that does not
    end in ".bgcode.gcode" this is the removal of one trailing extension. *)
Theorem GetThumbnail_derivation c path :
  octoprint.GetThumbnail c "" = "" /\
  (path <> "" ->
   octoprint.GetThumbnail c path =
     octoprint.baseURL c +:+ "/plugin/prusaslicerthumbnails/thumbnail/"
       +:+ TrimSuffix (TrimSuffix path ".gcode") ".bgcode" +:+ ".png") /\
  octoprint.GetThumbnail c (path +:+ ".gcode") =
    octoprint.thumbnailFormat (octoprint.baseURL c) (TrimSuffix path ".bgcode") /\
  octoprint.GetThumbnail c (path +:+ ".bgcode") =
    octoprint.thumbnailFormat (octoprint.baseURL c) path /\
  (path <> "" -> HasSuffix path ".bgcode.gcode" = false ->
   octoprint.GetThumbnail c path =
     octoprint.thumbnailFormat (octoprint.baseURL c)
       (strip_trailing_extension path)).
Proof.
  split; [reflexivity |]. split; [apply GetThumbnail_nonempty |].
  split; [| split].
  - rewrite GetThumbnail_nonempty by (apply string_app_nonempty; discriminate).
    now rewrite TrimSuffix_app.
  - rewrite GetThumbnail_nonempty by (apply string_app_nonempty; discriminate).
    rewrite (TrimSuffix_absent (path +:+ ".bgcode") ".gcode").
    + now rewrite TrimSuffix_app.
    + rewrite (HasSuffix_app_long path ".bgcode" ".gcode") by (simpl; lia).
      reflexivity.
  - intros Hpath Hboth. rewrite GetThumbnail_nonempty by exact Hpath.
    f_equal. unfold strip_trailing_extension.
    destruct (HasSuffix path ".gcode") eqn:Hg.
    + apply TrimSuffix_absent.
      destruct (HasSuffix (TrimSuffix path ".gcode") ".bgcode") eqn:Hb;
        [| reflexivity].
      rewrite (HasSuffix_both path Hg Hb) in Hboth. discriminate.
    + rewrite (TrimSuffix_absent path ".gcode") by exact Hg.
      destruct (HasSuffix path ".bgcode") eqn:Hb; [reflexivity |].
      now apply TrimSuffix_absent.
Qed.

End thumbnail_facts.

(** ** The example installation, polled *)

Section example_facts.
Import handlers Example.
#[local] Existing Instance runtime.
#[local] Existing Instance inventory.
#[local] Existing Instance decodePrinter.
#[local] Existing Instance decodeJob.
#[local] Existing Instance decodeSpool.

(** The MK4 has both its printing and its error flag set: it is reported
    as printing. *)
Lemma fetchPrinterStatus_classification_witness :
  octoprint.Printing (octoprint.Flags (octoprint.State (state "Printing" true true false))) = true /\
  octoprint.Error (octoprint.Flags (octoprint.State (state "Printing" true true false))) = true /\
  models.Status (fst (pipeline h w mk4)) = "printing".
Proof.
  split; [reflexivity |]. split; [reflexivity |].
  refine (proj1 (fetchPrinterStatus_classification h w mk4 mk4_client
                   (state "Printing" true true false) _ _) _);
    vm_compute; reflexivity.
Defined.

(** The Mini answers its state fetch with HTTP 503. *)
Lemma fetchPrinterStatus_state_fetch_failure_witness :
  models.Status (fst (pipeline h w mini)) = "offline" /\
  models.Error (fst (pipeline h w mini)) = error_Error (HTTPError 503 "starting") /\
  models.Error (fst (pipeline h w mini)) <> "" /\
  models.Progress (fst (pipeline h w mini)) = None /\
  models.Temperatures (fst (pipeline h w mini)) = None /\
  snd (pipeline h w mini) = [CallGetPrinterState mini_client].
Proof.
  apply (fetchPrinterStatus_state_fetch_failure h w mini mini_client
           (HTTPError 503 "starting")).
  - vm_compute; reflexivity.
  - vm_compute; reflexivity.
  - intros msg Hmsg; discriminate Hmsg.
Defined.

(** The MK4 prints and its job fetch times out. *)
Lemma fetchPrinterStatus_job_fetch_failure_witness :
  models.Status (fst (pipeline h w mk4)) = "printing" /\
  models.Temperatures (fst (pipeline h w mk4)) =
    Some {| models.BedActual := 60%Z; models.BedTarget := 60%Z;
            models.HotendActual := 214%Z; models.HotendTarget := 215%Z |} /\
  models.Progress (fst (pipeline h w mk4)) = None /\
  models.Error (fst (pipeline h w mk4)) = "".
Proof.
  apply (proj1 (fetchPrinterStatus_job_fetch_failure h w mk4) mk4_client
           (state "Printing" true true false)
           (LibError "context deadline exceeded"));
    vm_compute; reflexivity.
Defined.

(** The MK4's spool plugin reports a failure in [w] and spool 7 in
    [w_spool]. *)
Lemma fetchPrinterStatus_spool_failure_frame_witness :
  models.CurrentSpool (fst (pipeline h w_spool mk4)) = Some (<["name" := "PLA black"]> ∅) /\
  models.CurrentSpool (fst (pipeline h w mk4)) = None /\
  models.Status (fst (pipeline h w mk4)) = models.Status (fst (pipeline h w_spool mk4)) /\
  models.Temperatures (fst (pipeline h w mk4)) = models.Temperatures (fst (pipeline h w_spool mk4)) /\
  CallGetCurrentSpool mk4_client 0 ∈ snd (pipeline h w mk4).
Proof.
  pose proof (fetchPrinterStatus_spool_failure_frame h w w_spool mk4 mk4_client)
    as Hframe.
  destruct Hframe as [(Hspool & _ & _ & _ & Hstatus & _ & Htemp & _) Hcalls].
  - vm_compute; reflexivity.
  - vm_compute; reflexivity.
  - vm_compute; reflexivity.
  - left. exists (APIError "unknown tool"). vm_compute; reflexivity.
  - destruct (Hcalls (state "Printing" true true false)) as [Hcall _];
      [vm_compute; reflexivity |].
    split; [vm_compute; reflexivity |]. auto.
Defined.

(** The XL reports no spool; the MK4's plugin answers [success = false]. *)
Lemma fetchPrinterStatus_empty_spool_identifier_witness :
  ((forall c spoolID, CallGetSpool c spoolID ∉ snd (pipeline h w xl)) /\
   models.CurrentSpool (fst (pipeline h w xl)) = None /\
   models.Error (fst (pipeline h w xl)) = "") /\
  octoprint.GetCurrentSpool (net w) mk4_client 0 = Err (APIError "unknown tool").
Proof.
  split.
  - apply (proj1 (fetchPrinterStatus_empty_spool_identifier h w xl) xl_client
             (state "Operational" false false true));
      vm_compute; reflexivity.
  - apply (proj2 (fetchPrinterStatus_empty_spool_identifier h w mk4) mk4_client 0%Z
             {| http.Method := "POST";
                http.URL := "http://mk4/api/plugin/spoolman_api";
                http.XApiKey := "k1";
                http.Payload := Some (octoprint.spoolPayload 0) |}
             {| octoprint.Success := false; octoprint.SpoolID := "";
                octoprint.Error' := "unknown tool" |});
      vm_compute; reflexivity.
Defined.

(** A handler whose only printer has no client still answers. *)
Lemma handleStatus_missing_client_witness :
  pipeline h_unmapped w mk4 =
    ({| models.ID := "mk4"; models.Name := "Prusa MK4";
        models.OctoPrintURL := "http://mk4"; models.Status := "offline";
        models.State := ""; models.Progress := None;
        models.Temperatures := None; models.CurrentSpool := None;
        models.ThumbnailURL := ""; models.Error := "No client configured" |}, []) /\
  exists resp, handleStatus_returns h_unmapped w resp.
Proof.
  destruct (handleStatus_missing_client h_unmapped w mk4) as (Hrecord & Hret & _).
  - apply list_elem_of_here.
  - vm_compute; reflexivity.
  - split; [exact Hrecord | exact Hret].
Defined.

(** C4, as claimed, fails: the printer has no client mapping, and yet the
    poll is not aborted, a response is returned. *)
Lemma handleStatus_missing_client_counterexample :
  mk4 ∈ config.Printers (config h_unmapped) /\
  octoprintClients h_unmapped !! config.ID mk4 = None /\
  ~ (forall resp, ~ handleStatus_returns h_unmapped w resp).
Proof.
  split; [apply list_elem_of_here |]. split; [vm_compute; reflexivity |].
  intros Habort.
  apply (Habort (handleStatus h_unmapped w [])).
  apply handleStatus_sched_returns.
Qed.

(** C1, evaluated: the configuration lists MK4, Mini, XL; when the XL's
    goroutine sends first the response lists XL, MK4, Mini. *)
Lemma handleStatus_completion_order :
  map config.ID (config.Printers (config h)) = ["mk4"; "mini"; "xl"] /\
  handleStatus_returns h w (handleStatus h w [2; 0; 0]) /\
  map models.ID (printers (handleStatus h w [2; 0; 0])) = ["xl"; "mk4"; "mini"].
Proof.
  split; [reflexivity |]. split; [apply handleStatus_sched_returns |].
  vm_compute; reflexivity.
Qed.

(** C5, evaluated: two polls of the same handler against the same world
    return different responses. *)
Lemma handleStatus_two_polls_differ :
  handleStatus_returns h w (handleStatus h w [0; 0; 0]) /\
  handleStatus_returns h w (handleStatus h w [2; 0; 0]) /\
  handleStatus h w [0; 0; 0] <> handleStatus h w [2; 0; 0].
Proof.
  split; [apply handleStatus_sched_returns |].
  split; [apply handleStatus_sched_returns |].
  intros Heq.
  apply (f_equal (fun resp => map models.ID (printers resp))) in Heq.
  vm_compute in Heq. discriminate Heq.
Qed.

End example_facts.

(** C8, as claimed, fails: removing the one trailing extension of
    "a.bgcode.gcode" leaves "a.bgcode", but the code removes both. *)
Lemma GetThumbnail_counterexample :
  strip_trailing_extension "a.bgcode.gcode" = "a.bgcode" /\
  octoprint.GetThumbnail (octoprint.NewClient "http://mk4" "k1") "a.bgcode.gcode"
    = "http://mk4/plugin/prusaslicerthumbnails/thumbnail/a.png" /\
  octoprint.GetThumbnail (octoprint.NewClient "http://mk4" "k1") "a.bgcode.gcode"
    <> octoprint.thumbnailFormat "http://mk4"
         (strip_trailing_extension "a.bgcode.gcode").
Proof.
  split; [vm_compute; reflexivity |]. split; [vm_compute; reflexivity |].
  vm_compute. discriminate.
Qed.

Lemma GetThumbnail_derivation_witness :
  octoprint.GetThumbnail (octoprint.NewClient "http://mk4" "k1") "foo/bar.gcode"
    = "http://mk4/plugin/prusaslicerthumbnails/thumbnail/foo/bar.png" /\
  octoprint.GetThumbnail (octoprint.NewClient "http://mk4" "k1") "foo.bgcode"
    = "http://mk4/plugin/prusaslicerthumbnails/thumbnail/foo.png" /\
  octoprint.GetThumbnail (octoprint.NewClient "http://mk4" "k1") "foo/bar.gcode"
    = octoprint.thumbnailFormat "http://mk4" (strip_trailing_extension "foo/bar.gcode").
Proof.
  destruct (GetThumbnail_derivation (octoprint.NewClient "http://mk4" "k1") "foo/bar.gcode")
    as (_ & Hmain & _ & _ & Hone).
  destruct (GetThumbnail_derivation (octoprint.NewClient "http://mk4" "k1") "foo")
    as (_ & _ & _ & Hbgcode & _).
  split; [| split].
  - rewrite Hmain by discriminate. vm_compute; reflexivity.
  - exact Hbgcode.
  - apply Hone; [discriminate | vm_compute; reflexivity].
Defined.

(** * Further properties of the code *)

(** ** Invariants of the record and of the call log *)

Section pipeline_invariants.
Context `{GoRuntime} `{!Spoolman}.
Context `{!JSONDecode octoprint.PrinterResponse}
        `{!JSONDecode octoprint.JobResponse}
        `{!JSONDecode octoprint.SpoolResponse}.
Import handlers.

Implicit Types (h : Handler) (w : World) (p q : config.Printer).

#[local] Arguments octoprint.GetPrinterState : simpl never.
#[local] Arguments octoprint.GetJob : simpl never.
#[local] Arguments octoprint.GetCurrentSpool : simpl never.
#[local] Arguments octoprint.GetThumbnail : simpl never.

Ltac unfold_run :=
  unfold pipeline, fetchPrinterStatus, bind, perform, ret in *.

Ltac case_outcome :=
  match goal with
  | |- context [octoprintClients ?h !! ?k] =>
      destruct (octoprintClients h !! k) eqn:?
  | |- context [octoprint.GetPrinterState ?n ?c] =>
      destruct (octoprint.GetPrinterState n c) eqn:?
  | |- context [octoprint.Printing ?f] => destruct (octoprint.Printing f) eqn:?
  | |- context [octoprint.Ready ?f] => destruct (octoprint.Ready f) eqn:?
  | |- context [octoprint.Error ?f] => destruct (octoprint.Error f) eqn:?
  | |- context [octoprint.GetJob ?n ?c] =>
      destruct (octoprint.GetJob n c) eqn:?
  | |- context [String.eqb (octoprint.Path ?f) ""] =>
      destruct (String.eqb (octoprint.Path f) "") eqn:?
  | |- context [octoprint.GetCurrentSpool ?n ?c ?t] =>
      destruct (octoprint.GetCurrentSpool n c t) as [[|? ?]|] eqn:?
  | |- context [GetSpool ?w ?c ?i] =>
      destruct (GetSpool w c i) as [[|]|] eqn:?
  end; simpl.

Ltac case_outcomes := repeat case_outcome.

(** The status of a record is one of the four words the dashboard knows,
    whatever the upstream answers. *)
Theorem fetchPrinterStatus_status_enum h w p :
  models.Status (fst (pipeline h w p)) = "idle" \/
  models.Status (fst (pipeline h w p)) = "printing" \/
  models.Status (fst (pipeline h w p)) = "error" \/
  models.Status (fst (pipeline h w p)) = "offline".
Proof.
  unfold_run. case_outcomes; auto.
Qed.

(** A record that carries an error message is a bare offline record: no
    state text, no block, no thumbnail, and at most the state fetch was
    made. *)
Theorem fetchPrinterStatus_error_is_bare h w p :
  models.Error (fst (pipeline h w p)) <> "" ->
  models.Status (fst (pipeline h w p)) = "offline" /\
  models.State (fst (pipeline h w p)) = "" /\
  models.Progress (fst (pipeline h w p)) = None /\
  models.Temperatures (fst (pipeline h w p)) = None /\
  models.CurrentSpool (fst (pipeline h w p)) = None /\
  models.ThumbnailURL (fst (pipeline h w p)) = "" /\
  length (snd (pipeline h w p)) <= 1.
Proof.
  unfold_run. case_outcomes; intros Herr; try (now destruct Herr);
    repeat split; auto.
Qed.

(** The blocks depend on one another: progress is reported only for a
    printing printer, a thumbnail only together with progress, and progress or
    a spool only together with temperatures; a record with temperatures has
    no error. *)
Theorem fetchPrinterStatus_block_dependencies h w p :
  let st := fst (pipeline h w p) in
  (models.Progress st <> None -> models.Status st = "printing") /\
  (models.ThumbnailURL st <> "" -> models.Progress st <> None) /\
  (models.Progress st <> None -> models.Temperatures st <> None) /\
  (models.CurrentSpool st <> None -> models.Temperatures st <> None) /\
  (models.Temperatures st <> None -> models.Error st = "").
Proof.
  intros st. subst st. unfold_run.
  case_outcomes; repeat split; intros Hp; try reflexivity;
    try discriminate; try (now destruct Hp).
Qed.

(** Name the job calls and the inventory lookups of a computed log. *)
Ltac log_shape client :=
  first [ exists []; eexists; split; [reflexivity |]
        | exists [CallGetJob client]; eexists; split; [reflexivity |] ];
  split; [auto |];
  first [ now left
        | right; eexists; split; [| split; reflexivity]; discriminate ].

(** The calls of a pipeline come in a fixed order and at most once each: the
    state fetch, then the job fetch if any, then the spool identifier of
    tool 0, then the inventory lookup of a non-empty identifier if any.  All
    printer calls go to the one client stored under the printer's ID, and
    there is no call at all exactly when no client is stored. *)
Theorem fetchPrinterStatus_call_order h w p :
  let log := snd (pipeline h w p) in
  (octoprintClients h !! config.ID p = None <-> log = []) /\
  (forall client,
     octoprintClients h !! config.ID p = Some client ->
     log = [CallGetPrinterState client] \/
     exists jobs lookups,
       log = CallGetPrinterState client :: jobs
               ++ CallGetCurrentSpool client 0 :: lookups /\
       (jobs = [] \/ jobs = [CallGetJob client]) /\
       (lookups = [] \/
        exists spoolID,
          spoolID <> "" /\
          octoprint.GetCurrentSpool (net w) client 0 = Ok spoolID /\
          lookups = [CallGetSpool (spoolmanClient h) spoolID])) /\
  length log <= 4.
Proof.
  intros log. subst log. split; [| split].
  - unfold_run. case_outcomes; split; intros Hx; try reflexivity;
      discriminate Hx.
  - intros client Hclient. unfold_run. rewrite Hclient. simpl.
    case_outcomes; first [now left | right; log_shape client].
  - unfold_run. case_outcomes; lia.
Qed.

(** Whenever the state fetch succeeds, whatever the job and spool steps do
    afterwards, the record shows the response's state text and its four
    temperature readings and carries no error. *)
Theorem fetchPrinterStatus_state_success h w p client printerResp :
  octoprintClients h !! config.ID p = Some client ->
  octoprint.GetPrinterState (net w) client = Ok printerResp ->
  let st := fst (pipeline h w p) in
  let temperature := octoprint.Temperature printerResp in
  models.State st = octoprint.Text (octoprint.State printerResp) /\
  models.Temperatures st =
    Some {| models.BedActual := octoprint.Actual (octoprint.Bed temperature);
            models.BedTarget := octoprint.Target (octoprint.Bed temperature);
            models.HotendActual := octoprint.Actual (octoprint.Tool0 temperature);
            models.HotendTarget := octoprint.Target (octoprint.Tool0 temperature) |} /\
  models.Error st = "".
Proof.
  intros Hclient Hstate st temperature. subst st temperature.
  unfold_run. rewrite Hclient, Hstate. simpl.
  case_outcomes; repeat split; reflexivity.
Qed.

(** When a printing printer's job fetch succeeds, the progress block copies
    the job response (the estimated total converted to an integer), and the
    thumbnail is the one derived from the job's file path; the guard on the
    empty path changes nothing, the derivation of the empty path being
    empty. *)
Theorem fetchPrinterStatus_job_success h w p client printerResp jobResp :
  octoprintClients h !! config.ID p = Some client ->
  octoprint.GetPrinterState (net w) client = Ok printerResp ->
  octoprint.Printing (octoprint.Flags (octoprint.State printerResp)) = true ->
  octoprint.GetJob (net w) client = Ok jobResp ->
  let st := fst (pipeline h w p) in
  let job := octoprint.Job jobResp in
  let progress := octoprint.Progress jobResp in
  models.Progress st =
    Some {| models.Completion := octoprint.Completion progress;
            models.PrintTime := octoprint.PrintTime progress;
            models.PrintTimeLeft := octoprint.PrintTimeLeft progress;
            models.EstimatedTotal := float64_to_int (octoprint.EstimatedPrintTime job);
            models.FileName := octoprint.Display (octoprint.File job);
            models.FilamentLength :=
              octoprint.Length (octoprint.Tool0' (octoprint.Filament job)) |} /\
  models.ThumbnailURL st =
    octoprint.GetThumbnail client (octoprint.Path (octoprint.File job)).
Proof.
  intros Hclient Hstate Hprinting Hjob st job progress. subst st job progress.
  unfold_run. rewrite Hclient, Hstate. simpl.
  rewrite Hprinting. simpl. rewrite Hjob. simpl.
  destruct (String.eqb (octoprint.Path (octoprint.File (octoprint.Job jobResp))) "")
    eqn:Hpath; simpl.
  - apply String.eqb_eq in Hpath. rewrite Hpath.
    case_outcomes; split; reflexivity.
  - case_outcomes; split; reflexivity.
Qed.

(** After a successful state fetch the record has a spool block exactly when
    the printer names a non-empty spool identifier, the inventory returns a
    spool for it, and the formatted spool is a mapping; the block is that
    mapping.  Neither the flags nor the job fetch matter. *)
Theorem fetchPrinterStatus_spool_block h w p client printerResp m :
  octoprintClients h !! config.ID p = Some client ->
  octoprint.GetPrinterState (net w) client = Ok printerResp ->
  models.CurrentSpool (fst (pipeline h w p)) = Some m <->
  exists spoolID spool,
    spoolID <> "" /\
    octoprint.GetCurrentSpool (net w) client 0 = Ok spoolID /\
    GetSpool w (spoolmanClient h) spoolID = Ok (Some spool) /\
    FormatSpoolInfo spool = Some m.
Proof.
  intros Hclient Hstate.
  unfold_run. rewrite Hclient, Hstate. simpl.
  case_outcomes;
    (split;
     [ intros Hm;
       first [ discriminate Hm
             | do 2 eexists;
               split; [| split; [reflexivity | split; [eassumption | exact Hm]]];
               discriminate ]
     | intros (spoolID & spool & Hne & Hid & Hspool & Hfmt); congruence ]).
Qed.

(** The printer enters a pipeline only through its ID, name and URL: two
    configured printers with the same ID are served by the same client, make
    the same calls and get the same status, state text, blocks, thumbnail and
    error. *)
Theorem fetchPrinterStatus_same_ID h w p q :
  config.ID p = config.ID q ->
  let sp := fst (pipeline h w p) in
  let sq := fst (pipeline h w q) in
  snd (pipeline h w p) = snd (pipeline h w q) /\
  models.Status sp = models.Status sq /\
  models.State sp = models.State sq /\
  models.Progress sp = models.Progress sq /\
  models.Temperatures sp = models.Temperatures sq /\
  models.CurrentSpool sp = models.CurrentSpool sq /\
  models.ThumbnailURL sp = models.ThumbnailURL sq /\
  models.Error sp = models.Error sq.
Proof.
  intros Hid sp sq. subst sp sq.
  unfold_run. rewrite Hid.
  case_outcomes; repeat split; reflexivity.
Qed.

(** An HTTP status of 400 or more on the state fetch reaches the dashboard
    verbatim: the record is offline and its error is "HTTP <code>: <body>",
    whether or not the body would decode. *)
Theorem fetchPrinterStatus_http_error h w p client resp :
  octoprintClients h !! config.ID p = Some client ->
  octoprint.NewRequest (net w) "GET" (octoprint.baseURL client +:+ "/api/printer") = None ->
  octoprint.Do (net w)
    {| http.Method := "GET";
       http.URL := octoprint.baseURL client +:+ "/api/printer";
       http.XApiKey := octoprint.apiKey client;
       http.Payload := None |} = Ok resp ->
  (400 <= http.StatusCode resp)%Z ->
  models.Status (fst (pipeline h w p)) = "offline" /\
  models.Error (fst (pipeline h w p)) =
    "HTTP " +:+ Sprintf_d (http.StatusCode resp) +:+ ": " +:+ http.Body resp /\
  snd (pipeline h w p) = [CallGetPrinterState client].
Proof.
  intros Hclient Hreq Hdo Hcode.
  assert (Hstate : octoprint.GetPrinterState (net w) client
                   = Err (HTTPError (http.StatusCode resp) (http.Body resp))).
  { unfold octoprint.GetPrinterState, octoprint.newRequest. rewrite Hreq.
    unfold octoprint.doRequest. rewrite Hdo.
    apply Z.leb_le in Hcode. now rewrite Hcode. }
  unfold_run. rewrite Hclient, Hstate. simpl. repeat split; reflexivity.
Qed.

(** A record depends on the network only through the calls made for its own
    printer: two worlds that answer this client's state, job and spool
    identifier fetches alike, and the inventory lookup of the identifier
    obtained, give the same record and the same calls, however they differ
    for the other printers. *)
Theorem fetchPrinterStatus_isolation h w w' p :
  (forall client,
     octoprintClients h !! config.ID p = Some client ->
     octoprint.GetPrinterState (net w') client = octoprint.GetPrinterState (net w) client /\
     octoprint.GetJob (net w') client = octoprint.GetJob (net w) client /\
     octoprint.GetCurrentSpool (net w') client 0 = octoprint.GetCurrentSpool (net w) client 0 /\
     (forall spoolID,
        octoprint.GetCurrentSpool (net w) client 0 = Ok spoolID ->
        GetSpool w' (spoolmanClient h) spoolID = GetSpool w (spoolmanClient h) spoolID)) ->
  pipeline h w' p = pipeline h w p.
Proof.
  intros Hsame. unfold_run.
  destruct (octoprintClients h !! config.ID p) as [client|]; [| reflexivity].
  destruct (Hsame client eq_refl) as (Hstate & Hjob & Hid & Hspool).
  rewrite Hstate, Hjob, Hid. simpl.
  destruct (octoprint.GetPrinterState (net w) client); simpl; [| reflexivity].
  destruct (octoprint.GetCurrentSpool (net w) client 0) as [spoolID|];
    [rewrite (Hspool spoolID eq_refl) |]; reflexivity.
Qed.

Lemma GetThumbnail_empty (c : octoprint.Client) (path : string) :
  octoprint.GetThumbnail c path = "" <-> path = "".
Proof.
  unfold octoprint.GetThumbnail, octoprint.thumbnailFormat.
  destruct (String.eqb path "") eqn:Hpath.
  - apply String.eqb_eq in Hpath. tauto.
  - apply String.eqb_neq in Hpath. split; [| tauto].
    intros Hurl. exfalso. revert Hurl. apply string_app_nonempty.
    discriminate.
Qed.

(** After a successful state fetch the record has a progress block exactly
    when the printing flag is set and the job fetch succeeds, and a thumbnail
    URL exactly when, in addition, the job names a file path; an idle, failed
    or unflagged printer never shows progress left over from a job. *)
Theorem fetchPrinterStatus_progress_block h w p client printerResp :
  octoprintClients h !! config.ID p = Some client ->
  octoprint.GetPrinterState (net w) client = Ok printerResp ->
  let st := fst (pipeline h w p) in
  let printing := octoprint.Printing (octoprint.Flags (octoprint.State printerResp)) in
  (models.Progress st <> None <->
   printing = true /\ exists jobResp, octoprint.GetJob (net w) client = Ok jobResp) /\
  (models.ThumbnailURL st <> "" <->
   printing = true /\
   exists jobResp,
     octoprint.GetJob (net w) client = Ok jobResp /\
     octoprint.Path (octoprint.File (octoprint.Job jobResp)) <> "").
Proof.
  intros Hclient Hstate st printing. subst st printing.
  unfold_run. rewrite Hclient, Hstate. simpl.
  destruct (octoprint.Printing (octoprint.Flags (octoprint.State printerResp)));
    simpl.
  - destruct (octoprint.GetJob (net w) client) as [jobResp|err] eqn:Hjob; simpl.
    + destruct (String.eqb (octoprint.Path (octoprint.File (octoprint.Job jobResp))) "")
        eqn:Hpath; simpl.
      * apply String.eqb_eq in Hpath.
        case_outcomes; (split; split;
          [ intros _; eauto | discriminate
          | intros Hx; now destruct Hx
          | intros (_ & j & Hj & Hne); congruence ]).
      * apply String.eqb_neq in Hpath.
        assert (Hurl : octoprint.GetThumbnail client
                         (octoprint.Path (octoprint.File (octoprint.Job jobResp)))
                       <> "")
          by (intros Hx; now apply GetThumbnail_empty in Hx).
        case_outcomes; (split; split;
          [ intros _; eauto | discriminate
          | intros _; eauto | intros _; exact Hurl ]).
    + case_outcomes; (split; split;
        [ intros Hx; now destruct Hx | intros (_ & j & Hj); discriminate Hj
        | intros Hx; now destruct Hx
        | intros (_ & j & Hj & _); discriminate Hj ]).
  - case_outcomes; (split; split;
      [ intros Hx; now destruct Hx | intros [Hx _]; discriminate Hx
      | intros Hx; now destruct Hx | intros [Hx _]; discriminate Hx ]).
Qed.

(** Three facts in the form later sections use them. *)
Lemma pipeline_log_head h w p client :
  octoprintClients h !! config.ID p = Some client ->
  head (snd (pipeline h w p)) = Some (CallGetPrinterState client).
Proof.
  intros Hclient. unfold_run. rewrite Hclient. simpl.
  case_outcomes; reflexivity.
Qed.

Lemma pipeline_ID h w p : models.ID (fst (pipeline h w p)) = config.ID p.
Proof. unfold_run. case_outcomes; reflexivity. Qed.

Lemma pipeline_status_cases h w p :
  models.Status (fst (pipeline h w p)) ∈ ["idle"; "printing"; "error"; "offline"].
Proof.
  unfold_run. case_outcomes; rewrite !elem_of_cons; auto 6.
Qed.

End pipeline_invariants.

(** ** The handler's client map *)

Section handler_extras.
Context `{GoRuntime} `{!Spoolman}.
Context `{!JSONDecode octoprint.PrinterResponse}
        `{!JSONDecode octoprint.JobResponse}
        `{!JSONDecode octoprint.SpoolResponse}.
Import handlers.

Implicit Types (h : Handler) (w : World) (p q : config.Printer).
Implicit Types (cfg : config.Config) (ps : list config.Printer).

Lemma NewHandler_clients_lookup cfg (id : string) :
  octoprintClients (NewHandler cfg) !! id =
    (fun p => octoprint.NewClient (config.OctoPrintURL p) (config.APIKey p))
      <$> last (filter (fun p => config.ID p = id) (config.Printers cfg)).
Proof.
  unfold NewHandler. simpl.
  induction (config.Printers cfg) as [|p ps IH] using rev_ind.
  - simpl. apply lookup_empty.
  - rewrite foldl_snoc, filter_app.
    destruct (decide (config.ID p = id)) as [Heq|Hne].
    + rewrite (filter_singleton_True _ p ps Heq), last_snoc. simpl.
      rewrite Heq. apply lookup_insert_eq.
    + rewrite (filter_singleton_False _ p ps Hne), app_nil_r.
      rewrite lookup_insert_ne by exact Hne. exact IH.
Qed.

(** Among the printers of distinct IDs, a printer is the last one with its
    ID. *)
Lemma last_filter_own_ID ps p :
  NoDup (map config.ID ps) -> p ∈ ps ->
  last (filter (fun q => config.ID q = config.ID p) ps) = Some p.
Proof.
  induction ps as [|a ps IH]; intros Hnodup Hin.
  - now apply elem_of_nil in Hin.
  - simpl in Hnodup. apply NoDup_cons in Hnodup as [Hfresh Hnodup].
    assert (Hother : forall q, q ∈ ps -> config.ID q <> config.ID a).
    { intros q Hq Heq. apply Hfresh. rewrite <- Heq.
      now apply (list_elem_of_fmap_2 config.ID). }
    apply elem_of_cons in Hin as [->|Hin].
    + rewrite filter_cons_True by reflexivity.
      assert (Hnone : filter (fun q => config.ID q = config.ID a) ps = []).
      { clear -Hother. induction ps as [|b ps IH]; [reflexivity |].
        rewrite filter_cons_False by (apply Hother; left).
        apply IH. intros q Hq. apply Hother. now right. }
      now rewrite Hnone.
    + rewrite filter_cons_False
        by (intros Heq; now apply (Hother p Hin)).
      now apply IH.
Qed.

(** [NewHandler] stores the clients under the printers' IDs, a later printer
    replacing an earlier one of the same ID: the client found under an ID is
    the one made from the URL and API key of the last configured printer with
    that ID, and no client is found under an ID that no printer has. *)
Theorem NewHandler_last_printer_wins cfg (id : string) :
  (forall client,
     octoprintClients (NewHandler cfg) !! id = Some client <->
     exists before p after,
       config.Printers cfg = before ++ p :: after /\
       config.ID p = id /\
       Forall (fun q => config.ID q <> id) after /\
       client = octoprint.NewClient (config.OctoPrintURL p) (config.APIKey p)) /\
  (octoprintClients (NewHandler cfg) !! id = None <->
   Forall (fun q => config.ID q <> id) (config.Printers cfg)).
Proof.
  rewrite NewHandler_clients_lookup. split.
  - intros client. split.
    + intros Hlookup.
      destruct (last (filter (fun p => config.ID p = id) (config.Printers cfg)))
        as [p|] eqn:Hlast; [| discriminate].
      injection Hlookup as <-.
      destruct (last_filter_Some _ _ _ Hlast) as (before & after & Hsplit & Hafter).
      exists before, p, after. repeat split; auto.
      assert (Hp : p ∈ filter (fun p => config.ID p = id) (config.Printers cfg)).
      { apply last_Some in Hlast as [l' ->]. apply elem_of_app. right. left. }
      now apply list_elem_of_filter in Hp as [Hp _].
    + intros (before & p & after & Hsplit & Hid & Hafter & ->).
      rewrite Hsplit, filter_app, filter_cons_True by exact Hid.
      assert (Hnone : filter (fun q => config.ID q = id) after = []).
      { clear -Hafter. induction Hafter as [|q after Hq _ IH]; [reflexivity |].
        now rewrite filter_cons_False. }
      rewrite Hnone, last_snoc. reflexivity.
  - split.
    + intros Hnone. apply Forall_forall. intros q Hq Hid.
      destruct (last (filter (fun p => config.ID p = id) (config.Printers cfg)))
        eqn:Hlast; [discriminate |].
      apply last_None in Hlast.
      assert (Hin : q ∈ filter (fun p => config.ID p = id) (config.Printers cfg))
        by (apply list_elem_of_filter; auto).
      rewrite Hlast in Hin. now apply elem_of_nil in Hin.
    + intros Hall.
      assert (Hnone : filter (fun q => config.ID q = id) (config.Printers cfg) = []).
      { induction Hall as [|q after Hq _ IH]; [reflexivity |].
        now rewrite filter_cons_False. }
      now rewrite Hnone.
Qed.

(** When the configured IDs are distinct, every configured printer is polled
    through its own client: its pipeline starts with a state fetch sent to
    the client made from its own URL and API key, so the error "No client
    configured" is not reached. *)
Theorem NewHandler_own_client cfg w p :
  NoDup (map config.ID (config.Printers cfg)) ->
  p ∈ config.Printers cfg ->
  octoprintClients (NewHandler cfg) !! config.ID p = Some (octoprint.NewClient (config.OctoPrintURL p) (config.APIKey p)) /\
  head (snd (pipeline (NewHandler cfg) w p)) = Some (CallGetPrinterState (octoprint.NewClient (config.OctoPrintURL p) (config.APIKey p))).
Proof.
  intros Hnodup Hin.
  assert (Hclient : octoprintClients (NewHandler cfg) !! config.ID p
                    = Some (octoprint.NewClient (config.OctoPrintURL p) (config.APIKey p))).
  { rewrite NewHandler_clients_lookup, last_filter_own_ID by assumption.
    reflexivity. }
  split; [exact Hclient |].
  now apply pipeline_log_head.
Qed.

End handler_extras.

(** ** What one poll can return *)

Section poll_extras.
Context `{GoRuntime} `{!Spoolman}.
Context `{!JSONDecode octoprint.PrinterResponse}
        `{!JSONDecode octoprint.JobResponse}
        `{!JSONDecode octoprint.SpoolResponse}.
Import handlers.

Implicit Types (h : Handler) (w : World) (p : config.Printer).
Implicit Types (ps : list config.Printer) (ch : list models.PrinterStatus).

Lemma records_IDs h w ps : map models.ID (records h w ps) = map config.ID ps.
Proof.
  unfold records. rewrite map_map. apply map_ext. intros p.
  apply pipeline_ID.
Qed.

(** Every response says "ok" and accounts for every configured printer
    exactly once: it has as many records as there are printers, its records
    are those of the printers up to order, and so are its IDs. *)
Theorem handleStatus_one_record_each h w resp :
  handleStatus_returns h w resp ->
  status resp = "ok" /\
  length (printers resp) = length (config.Printers (config h)) /\
  printers resp ≡ₚ records h w (config.Printers (config h)) /\
  map models.ID (printers resp) ≡ₚ map config.ID (config.Printers (config h)).
Proof.
  intros Hret.
  destruct (handleStatus_returns_Permutation _ _ _ Hret) as [Hok Hperm].
  split; [exact Hok |]. split; [now apply (handleStatus_returns_length h w) |].
  split; [exact Hperm |].
  rewrite <- (records_IDs h w). now apply Permutation_map.
Qed.

Lemma sends_any_order h w ps (order : list config.Printer) ch :
  order ≡ₚ ps ->
  rtc (send h w)
      {| running := ps; statusChan := ch |}
      {| running := []; statusChan := ch ++ records h w order |}.
Proof.
  revert ps ch. induction order as [|p order IH]; intros ps ch Hperm.
  - apply Permutation_nil_l in Hperm. subst ps. unfold records. simpl.
    rewrite app_nil_r. apply rtc_refl.
  - assert (Hin : p ∈ ps) by (rewrite <- Hperm; left).
    apply list_elem_of_split in Hin as (before & after & ->).
    replace (ch ++ records h w (p :: order))
      with ((ch ++ [fst (pipeline h w p)]) ++ records h w order)
      by (unfold records; simpl; now rewrite <- app_assoc).
    eapply rtc_l; [apply send_next |].
    apply IH. now apply Permutation_cons_app_inv in Hperm.
Qed.

(** Nothing orders the records: for every arrangement of the configured
    printers there is a run of the goroutines whose response lists the
    records in that arrangement. *)
Theorem handleStatus_any_order h w (order : list config.Printer) :
  order ≡ₚ config.Printers (config h) ->
  handleStatus_returns h w {| status := "ok"; printers := records h w order |}.
Proof.
  intros Hperm. exists (records h w order). split; [| reflexivity].
  apply (sends_any_order h w _ order [] Hperm).
Qed.

(** With no printer or a single one the response is unique: the empty list,
    or the one record. *)
Theorem handleStatus_small_config h w resp :
  length (config.Printers (config h)) <= 1 ->
  handleStatus_returns h w resp ->
  resp = {| status := "ok";
            printers := records h w (config.Printers (config h)) |}.
Proof.
  intros Hlen Hret.
  destruct (handleStatus_returns_Permutation _ _ _ Hret) as [Hok Hperm].
  destruct resp as [st prs]. simpl in *. subst st. f_equal.
  destruct (config.Printers (config h)) as [|p [|q ps]]; simpl in *.
  - now apply Permutation_nil_r in Hperm.
  - now apply Permutation_singleton_r in Hperm.
  - lia.
Qed.

End poll_extras.

(** ** The page: how poll responses are merged and shown *)

Section page_extras.
Context `{GoRuntime} `{!Spoolman}.
Context `{!JSONDecode octoprint.PrinterResponse}
        `{!JSONDecode octoprint.JobResponse}
        `{!JSONDecode octoprint.SpoolResponse}.
Import handlers.

Implicit Types (h : Handler) (w : World) (p : config.Printer).
Implicit Types (cards : list app.Card) (data : list models.PrinterStatus).
Implicit Types (d : app.Dashboard) (r : app.FetchResult).

Lemma find_updated_Some data (c : app.Card) (u : models.PrinterStatus) :
  app.find_updated data c = Some u ->
  u ∈ data /\ Some (models.ID u) = app.card_id c.
Proof.
  intros Hfind. apply find_some in Hfind as [Hin Hid].
  split; [now apply list_elem_of_In |].
  now apply bool_decide_eq_true in Hid.
Qed.

Lemma find_updated_None data (c : app.Card) :
  app.find_updated data c = None <->
  forall u, u ∈ data -> Some (models.ID u) <> app.card_id c.
Proof.
  split.
  - intros Hfind u Hin Hid. apply list_elem_of_In in Hin.
    pose proof (find_none _ _ Hfind u Hin) as Hfalse. simpl in Hfalse.
    now apply bool_decide_eq_false in Hfalse.
  - intros Hnone. destruct (app.find_updated data c) as [u|] eqn:Hfind;
      [| reflexivity].
    apply find_updated_Some in Hfind as [Hin Hid]. now destruct (Hnone u Hin).
Qed.

Lemma merged_card_id data (c : app.Card) :
  app.card_id match app.find_updated data c with
              | Some updated => app.StatusCard updated
              | None => c
              end = app.card_id c.
Proof.
  destruct (app.find_updated data c) as [u|] eqn:Hfind; [| reflexivity].
  apply find_updated_Some in Hfind as [_ Hid]. simpl. congruence.
Qed.

Lemma merge_ids cards data :
  map app.card_id (app.merge cards data) = map app.card_id cards.
Proof.
  unfold app.merge. rewrite map_map. apply map_ext. intros c.
  apply merged_card_id.
Qed.

Lemma fetchStatus_ids d r :
  map app.card_id (app.printers (app.fetchStatus d r))
    = map app.card_id (app.printers d).
Proof.
  destruct r as [|[data|]]; simpl; [| apply merge_ids | reflexivity].
  now destruct (app.loading d).
Qed.

Lemma polls_ids d (rs : list app.FetchResult) :
  map app.card_id (app.printers (app.polls d rs))
    = map app.card_id (app.printers d).
Proof.
  unfold app.polls. revert d. induction rs as [|r rs IH]; intros d; simpl.
  - reflexivity.
  - now rewrite IH, fetchStatus_ids.
Qed.

(** Merging a response replaces a card by the first record of the response
    that has the card's id, and keeps the card, with whatever it showed
    before, when the response has no such record; the cards keep their
    number, their order and their ids. *)
Theorem merge_first_match cards data :
  length (app.merge cards data) = length cards /\
  map app.card_id (app.merge cards data) = map app.card_id cards /\
  (forall i c,
     cards !! i = Some c ->
     (forall u, u ∈ data -> Some (models.ID u) <> app.card_id c) ->
     app.merge cards data !! i = Some c) /\
  (forall i c before u after,
     cards !! i = Some c ->
     data = before ++ u :: after ->
     Some (models.ID u) = app.card_id c ->
     Forall (fun v => Some (models.ID v) <> app.card_id c) before ->
     app.merge cards data !! i = Some (app.StatusCard u)).
Proof.
  split; [apply length_map |]. split; [apply merge_ids |]. split.
  - intros i c Hc Hnone. unfold app.merge.
    rewrite list_lookup_fmap.
    rewrite Hc. simpl.
    now rewrite (proj2 (find_updated_None data c) Hnone).
  - intros i c before u after Hc -> Hid Hbefore. unfold app.merge.
    rewrite list_lookup_fmap.
    rewrite Hc. simpl. do 2 f_equal.
    unfold app.find_updated.
    induction Hbefore as [|v before Hv _ IH]; simpl.
    + now rewrite bool_decide_eq_true_2.
    + now rewrite bool_decide_eq_false_2.
Qed.

Lemma init_polls_ids h r (rs : list app.FetchResult) :
  map app.card_id
      (app.printers (app.polls (app.init (handleDashboard_printers h) r) rs))
    = map (fun p => Some (config.ID p)) (config.Printers (config h)).
Proof.
  rewrite polls_ids. unfold app.init. simpl. rewrite fetchStatus_ids. simpl.
  unfold handleDashboard_printers. rewrite !map_map. apply map_ext.
  intros p. simpl. apply lookup_insert_eq.
Qed.

(** Whatever [/api/status] answers, and however often, the page lists the
    printers in configuration order: after [init] on the [PRINTERS] that
    [handleDashboard] prepared and any sequence of polls, the ids of the
    cards are the configured IDs, in order. *)
Theorem page_order_is_configuration_order h r (rs : list app.FetchResult) :
  map app.card_id
      (app.printers (app.polls (app.init (handleDashboard_printers h) r) rs))
    = map (fun p => Some (config.ID p)) (config.Printers (config h)).
Proof.
  rewrite polls_ids. unfold app.init. simpl. rewrite fetchStatus_ids. simpl.
  unfold handleDashboard_printers. rewrite !map_map. apply map_ext.
  intros p. simpl. apply lookup_insert_eq.
Qed.

(** The error banner is decided by the first fetch alone: it is set exactly
    when the fetch awaited by [init] fails, and no later poll, failed or
    successful, sets or clears it. *)
Theorem page_error_is_first_fetch (PRINTERS : list (gmap string string)) r
    (rs : list app.FetchResult) :
  app.error (app.polls (app.init PRINTERS r) rs) =
    match r with
    | app.FetchFailed => Some "Failed to connect to printers"
    | app.FetchData _ => None
    end /\
  app.loading (app.polls (app.init PRINTERS r) rs) = false.
Proof.
  assert (Hkeep : forall d,
             app.loading d = false ->
             app.error (app.polls d rs) = app.error d /\
             app.loading (app.polls d rs) = false).
  { unfold app.polls. induction rs as [|r' rs' IH]; intros d Hd; simpl.
    - auto.
    - destruct (IH (app.fetchStatus d r')) as [He Hl].
      + destruct r' as [|[data|]]; simpl; auto. now rewrite Hd.
      + rewrite He, Hl. split; [| reflexivity].
        destruct r' as [|[data|]]; simpl; auto. now rewrite Hd. }
  destruct (Hkeep (app.init PRINTERS r) eq_refl) as [He Hl].
  rewrite He, Hl. split; [| reflexivity].
  now destruct r as [|[data|]].
Qed.

Lemma NoDup_map_inj {A B : Type} (f : A -> B) (l : list A) (x y : A) :
  NoDup (map f l) -> x ∈ l -> y ∈ l -> f x = f y -> x = y.
Proof.
  induction l as [|a l IH]; intros Hnodup Hx Hy Hf.
  - now apply elem_of_nil in Hx.
  - simpl in Hnodup. apply NoDup_cons in Hnodup as [Hfresh Hnodup].
    apply elem_of_cons in Hx as [->|Hx]; apply elem_of_cons in Hy as [->|Hy].
    + reflexivity.
    + destruct Hfresh. rewrite Hf. now apply (list_elem_of_fmap_2 f).
    + destruct Hfresh. rewrite <- Hf. now apply (list_elem_of_fmap_2 f).
    + now apply IH.
Qed.

(** In a response, the record found for a card is the record of the printer
    that has the card's id, when the configured IDs are distinct. *)
Lemma find_updated_record h w resp p (c : app.Card) :
  NoDup (map config.ID (config.Printers (config h))) ->
  handleStatus_returns h w resp ->
  p ∈ config.Printers (config h) ->
  app.card_id c = Some (config.ID p) ->
  app.find_updated (printers resp) c = Some (fst (pipeline h w p)).
Proof.
  intros Hnodup Hret Hp Hc.
  apply handleStatus_returns_Permutation in Hret as [_ Hperm].
  destruct (app.find_updated (printers resp) c) as [u|] eqn:Hfind.
  - apply find_updated_Some in Hfind as [Hin Hid].
    rewrite Hperm in Hin. unfold records in Hin.
    apply list_elem_of_fmap in Hin as (q & -> & Hq).
    rewrite pipeline_ID, Hc in Hid. injection Hid as Hid.
    now rewrite (NoDup_map_inj config.ID _ q p Hnodup Hq Hp Hid).
  - exfalso.
    apply (proj1 (find_updated_None _ _) Hfind (fst (pipeline h w p))).
    + rewrite Hperm. unfold records.
      now apply (list_elem_of_fmap_2 (fun p => fst (pipeline h w p))).
    + now rewrite pipeline_ID, Hc.
Qed.

Lemma merge_records h w resp :
  NoDup (map config.ID (config.Printers (config h))) ->
  handleStatus_returns h w resp ->
  forall (ps : list config.Printer) cards,
    (forall p, p ∈ ps -> p ∈ config.Printers (config h)) ->
    map app.card_id cards = map (fun p => Some (config.ID p)) ps ->
    app.merge cards (printers resp) = map app.StatusCard (records h w ps).
Proof.
  intros Hnodup Hret ps cards. revert ps.
  induction cards as [|c cards IH]; intros [|p ps] Hsub Hids;
    try discriminate Hids; [reflexivity |].
  simpl in Hids. injection Hids as Hc Hids.
  unfold records. simpl. f_equal.
  - rewrite (find_updated_record h w resp p c Hnodup Hret); auto.
    apply Hsub. left.
  - apply IH; [| exact Hids]. intros q Hq. apply Hsub. now right.
Qed.

(** The page undoes the disorder of the response: when the configured IDs
    are distinct, then after any history of polls, once a response of
    [handleStatus] has been merged the page shows exactly the records of
    that poll, in configuration order, in whatever order the goroutines
    sent them. *)
Theorem page_shows_poll_in_configuration_order h w resp r
    (rs : list app.FetchResult) :
  NoDup (map config.ID (config.Printers (config h))) ->
  handleStatus_returns h w resp ->
  app.printers
    (app.polls (app.init (handleDashboard_printers h) r)
               (rs ++ [app.FetchData (Some (printers resp))]))
    = map app.StatusCard (records h w (config.Printers (config h))).
Proof.
  intros Hnodup Hret.
  unfold app.polls. rewrite foldl_snoc.
  fold (app.polls (app.init (handleDashboard_printers h) r) rs).
  simpl.
  apply (merge_records h w resp Hnodup Hret); [auto |].
  apply init_polls_ids.
Qed.

(** The status of every record the server produces has a label: the page
    shows "Ready", "Printing", "Error" or "Offline" for it, never the raw
    word, "Unknown" or an inherited property. *)
Theorem formatStatus_of_record (inherited : string -> bool) h w p :
  let status := models.Status (fst (pipeline h w p)) in
  (status = "idle" /\ app.formatStatus inherited status = app.Label "Ready") \/
  (status = "printing" /\ app.formatStatus inherited status = app.Label "Printing") \/
  (status = "error" /\ app.formatStatus inherited status = app.Label "Error") \/
  (status = "offline" /\ app.formatStatus inherited status = app.Label "Offline").
Proof.
  intros status. subst status.
  pose proof (pipeline_status_cases h w p) as Hcases.
  rewrite !elem_of_cons, elem_of_nil in Hcases.
  destruct Hcases as [Hs|[Hs|[Hs|[Hs|[]]]]]; rewrite Hs.
  - left. split; reflexivity.
  - right; left. split; reflexivity.
  - right; right; left. split; reflexivity.
  - right; right; right. split; reflexivity.
Qed.

(** The page is given one entry per configured printer, in order, holding
    the printer's ID, name and URL under "id", "name" and "octoprint_url" and
    no other key: the API key is not among the fields. *)
Theorem handleDashboard_printers_entries h :
  length (handleDashboard_printers h) = length (config.Printers (config h)) /\
  (forall i p,
     config.Printers (config h) !! i = Some p ->
     exists entry,
       handleDashboard_printers h !! i = Some entry /\
       entry !! "id" = Some (config.ID p) /\
       entry !! "name" = Some (config.Name p) /\
       entry !! "octoprint_url" = Some (config.OctoPrintURL p) /\
       (forall k, is_Some (entry !! k) ->
                  k = "id" \/ k = "name" \/ k = "octoprint_url")).
Proof.
  split; [apply length_map |].
  intros i p Hp. unfold handleDashboard_printers.
  rewrite list_lookup_fmap, Hp. simpl. eexists. split; [reflexivity |].
  split; [apply lookup_insert_eq |].
  split; [rewrite lookup_insert_ne by discriminate; apply lookup_insert_eq |].
  split; [rewrite !lookup_insert_ne by discriminate; apply lookup_insert_eq |].
  intros k Hk.
  apply lookup_insert_is_Some' in Hk as [<-|Hk]; [now left |].
  apply lookup_insert_is_Some' in Hk as [<-|Hk]; [now right; left |].
  apply lookup_insert_is_Some' in Hk as [<-|Hk]; [now right; right |].
  rewrite lookup_empty in Hk. now destruct Hk.
Qed.

End page_extras.

(** ** Durations: [FormatDuration] *)

Section duration_extras.

Lemma string_of_uint_digits (d : Decimal.uint) :
  all_digits (NilEmpty.string_of_uint d) = true.
Proof. induction d; simpl; auto. Qed.

Lemma Sprintf_d_digits (n : Z) :
  (0 <= n)%Z -> all_digits (Sprintf_d n) = true /\ Sprintf_d n <> "".
Proof.
  intros Hn. unfold Sprintf_d. destruct n as [|p|p]; [| | lia].
  - split; [reflexivity | discriminate].
  - simpl. pose proof (Unsigned.to_uint_nonnil p) as Hnil.
    destruct (Pos.to_uint p) eqn:Hd; try (now destruct Hnil);
      (split; [apply (string_of_uint_digits (_ u)) | discriminate]).
Qed.

Lemma Sprintf_d_inj (a b : Z) : Sprintf_d a = Sprintf_d b -> a = b.
Proof.
  intros Heq. unfold Sprintf_d in Heq. apply to_int_inj.
  assert (Hnz : forall n, Z.to_int n <> Decimal.Pos Decimal.Nil /\
                          Z.to_int n <> Decimal.Neg Decimal.Nil).
  { intros [|p|p]; simpl; split; try discriminate;
      intros Hx; injection Hx as Hx; now apply Unsigned.to_uint_nonnil in Hx. }
  pose proof (NilZero.isi (Z.to_int a) (proj1 (Hnz a)) (proj2 (Hnz a))) as Ha.
  pose proof (NilZero.isi (Z.to_int b) (proj1 (Hnz b)) (proj2 (Hnz b))) as Hb.
  rewrite Heq in Ha. congruence.
Qed.

(** A run of digits ends where the first other byte stands. *)
Lemma digits_split (d1 d2 : string) (c1 c2 : ascii) (r1 r2 : string) :
  all_digits d1 = true -> all_digits d2 = true ->
  is_digit c1 = false -> is_digit c2 = false ->
  d1 +:+ String c1 r1 = d2 +:+ String c2 r2 ->
  d1 = d2 /\ c1 = c2 /\ r1 = r2.
Proof.
  revert d2. induction d1 as [|a d1 IH]; intros [|b d2] H1 H2 Hc1 Hc2 Heq.
  - injection Heq as -> ->. auto.
  - change (String c1 r1 = String b (d2 +:+ String c2 r2)) in Heq.
    injection Heq as -> _. simpl in H2. apply andb_prop in H2 as [H2 _].
    congruence.
  - change (String a (d1 +:+ String c1 r1) = String c2 r2) in Heq.
    injection Heq as -> _. simpl in H1. apply andb_prop in H1 as [H1 _].
    congruence.
  - change (String a (d1 +:+ String c1 r1) = String b (d2 +:+ String c2 r2))
      in Heq.
    injection Heq as -> Heq.
    simpl in H1, H2. apply andb_prop in H1 as [_ H1].
    apply andb_prop in H2 as [_ H2].
    destruct (IH d2 H1 H2 Hc1 Hc2 Heq) as (-> & -> & ->). auto.
Qed.

Local Open Scope Z_scope.

(** A duration that is zero or negative is shown as the placeholder.  A
    positive one is split into hours, minutes below 60 and seconds below 60
    that add up to it, Go's truncating division agreeing with the floor here;
    hours are shown only when there are any, and minutes only when there are
    hours or minutes. *)
Theorem FormatDuration_parts (seconds : Z) :
  (seconds <= 0 -> models.FormatDuration seconds = "--:--:--") /\
  (0 < seconds ->
   let hours := seconds / 3600 in
   let minutes := (seconds mod 3600) / 60 in
   let secs := seconds mod 60 in
   seconds = 3600 * hours + 60 * minutes + secs /\
   0 <= hours /\ 0 <= minutes < 60 /\ 0 <= secs < 60 /\
   (3600 <= seconds ->
    models.FormatDuration seconds =
      Sprintf_d hours +:+ "h " +:+ Sprintf_d minutes +:+ "m "
        +:+ Sprintf_d secs +:+ "s") /\
   (60 <= seconds < 3600 ->
    models.FormatDuration seconds =
      Sprintf_d minutes +:+ "m " +:+ Sprintf_d secs +:+ "s") /\
   (seconds < 60 ->
    models.FormatDuration seconds = Sprintf_d seconds +:+ "s")).
Proof.
  split.
  - intros Hle. unfold models.FormatDuration.
    apply Z.leb_le in Hle. now rewrite Hle.
  - intros Hpos hours minutes secs. subst hours minutes secs.
    assert (Hgt : (seconds <=? 0) = false) by (apply Z.leb_gt; (Z.div_mod_to_equations; lia)).
    assert (Hq : Z.quot seconds 3600 = seconds / 3600)
      by (apply Z.quot_div_nonneg; (Z.div_mod_to_equations; lia)).
    assert (Hr : Z.rem seconds 3600 = seconds mod 3600)
      by (apply Z.rem_mod_nonneg; (Z.div_mod_to_equations; lia)).
    assert (Hq' : Z.quot (seconds mod 3600) 60 = (seconds mod 3600) / 60)
      by (apply Z.quot_div_nonneg; (Z.div_mod_to_equations; lia)).
    assert (Hr' : Z.rem seconds 60 = seconds mod 60)
      by (apply Z.rem_mod_nonneg; (Z.div_mod_to_equations; lia)).
    unfold models.FormatDuration. rewrite Hgt, Hq, Hr, Hq', Hr'.
    split; [(Z.div_mod_to_equations; lia) |]. split; [(Z.div_mod_to_equations; lia) |]. split; [(Z.div_mod_to_equations; lia) |]. split; [(Z.div_mod_to_equations; lia) |].
    split; [| split].
    + intros Hbig.
      assert (Hh : (0 <? seconds / 3600) = true) by (apply Z.ltb_lt; Z.div_mod_to_equations; lia).
      now rewrite Hh.
    + intros Hmid.
      assert (Hh : (0 <? seconds / 3600) = false) by (apply Z.ltb_ge; (Z.div_mod_to_equations; lia)).
      assert (Hm : (0 <? seconds mod 3600 / 60) = true)
        by (apply Z.ltb_lt; Z.div_mod_to_equations; lia).
      now rewrite Hh, Hm.
    + intros Hsmall.
      assert (Hh : (0 <? seconds / 3600) = false) by (apply Z.ltb_ge; (Z.div_mod_to_equations; lia)).
      assert (Hm : (0 <? seconds mod 3600 / 60) = false)
        by (apply Z.ltb_ge; (Z.div_mod_to_equations; lia)).
      rewrite Hh, Hm. do 2 f_equal. (Z.div_mod_to_equations; lia).
Qed.

(** The three renderings of a positive duration, byte by byte. *)
Lemma FormatDuration_shape (seconds : Z) :
  0 < seconds ->
  exists hours minutes secs,
    seconds = 3600 * hours + 60 * minutes + secs /\
    0 <= hours /\ 0 <= minutes < 60 /\ 0 <= secs < 60 /\
    ((0 < hours /\
      models.FormatDuration seconds =
        Sprintf_d hours +:+
          String "h" (String " " (Sprintf_d minutes +:+
            String "m" (String " " (Sprintf_d secs +:+ String "s" ""))))) \/
     (hours = 0 /\ 0 < minutes /\
      models.FormatDuration seconds =
        Sprintf_d minutes +:+
          String "m" (String " " (Sprintf_d secs +:+ String "s" ""))) \/
     (hours = 0 /\ minutes = 0 /\
      models.FormatDuration seconds = Sprintf_d secs +:+ String "s" "")).
Proof.
  intros Hpos.
  exists (seconds / 3600), ((seconds mod 3600) / 60), (seconds mod 60).
  assert (Hgt : (seconds <=? 0) = false) by (apply Z.leb_gt; lia).
  assert (Hq : Z.quot seconds 3600 = seconds / 3600)
    by (apply Z.quot_div_nonneg; lia).
  assert (Hr : Z.rem seconds 3600 = seconds mod 3600)
    by (apply Z.rem_mod_nonneg; lia).
  assert (Hq' : Z.quot (seconds mod 3600) 60 = (seconds mod 3600) / 60)
    by (apply Z.quot_div_nonneg; Z.div_mod_to_equations; lia).
  assert (Hr' : Z.rem seconds 60 = seconds mod 60)
    by (apply Z.rem_mod_nonneg; lia).
  unfold models.FormatDuration. rewrite Hgt, Hq, Hr, Hq', Hr'.
  split; [Z.div_mod_to_equations; lia |].
  split; [Z.div_mod_to_equations; lia |].
  split; [Z.div_mod_to_equations; lia |].
  split; [Z.div_mod_to_equations; lia |].
  destruct (0 <? seconds / 3600) eqn:Hh.
  - left. apply Z.ltb_lt in Hh. split; [exact Hh | reflexivity].
  - right. apply Z.ltb_ge in Hh.
    assert (Hzero : seconds / 3600 = 0) by (Z.div_mod_to_equations; lia).
    destruct (0 <? seconds mod 3600 / 60) eqn:Hm.
    + left. apply Z.ltb_lt in Hm. repeat split; auto.
    + right. apply Z.ltb_ge in Hm. repeat split; auto.
      Z.div_mod_to_equations; lia.
Qed.

(** Cut an equation between two renderings at the first byte that is not a
    digit. *)
Ltac cut_digits Heq Hd Hr :=
  apply digits_split in Heq as (Hd & ?Hc & Hr);
  [ | apply Sprintf_d_digits; lia | apply Sprintf_d_digits; lia
    | reflexivity | reflexivity ];
  try discriminate;
  apply Sprintf_d_inj in Hd.

(** The rendering loses nothing: two positive durations that are shown alike
    are equal, and a positive duration is never shown as the placeholder of
    the unknown one. *)
Theorem FormatDuration_injective (a b : Z) :
  0 < a ->
  models.FormatDuration a <> "--:--:--" /\
  (0 < b -> models.FormatDuration a = models.FormatDuration b -> a = b).
Proof.
  intros Ha.
  destruct (FormatDuration_shape a Ha)
    as (h & m & s & Hsum & Hh & Hm & Hs & Hshape).
  split.
  - intros Hplace.
    assert (Hno : forall n rest, 0 <= n ->
               Sprintf_d n +:+ rest <> String "-" "-:--:--").
    { intros n rest Hn Heq.
      destruct (Sprintf_d_digits n Hn) as [Hdig Hne].
      destruct (Sprintf_d n) as [|c d]; [now destruct Hne |].
      change (String c (d +:+ rest) = String "-" "-:--:--") in Heq.
      injection Heq as -> _. simpl in Hdig. discriminate Hdig. }
    destruct Hshape as [[_ Hf]|[(_ & _ & Hf)|(_ & _ & Hf)]];
      rewrite Hf in Hplace; revert Hplace; apply Hno; lia.
  - intros Hb Heq.
    destruct (FormatDuration_shape b Hb)
      as (h' & m' & s' & Hsum' & Hh' & Hm' & Hs' & Hshape').
    destruct Hshape as [[Hpos Hf]|[(Hz & Hpos & Hf)|(Hz & Hz2 & Hf)]];
      destruct Hshape' as [[Hpos' Hf']|[(Hz' & Hpos' & Hf')|(Hz' & Hz2' & Hf')]];
      rewrite Hf, Hf' in Heq; cut_digits Heq Hd1 Hr1.
    + injection Hr1 as Hr1. cut_digits Hr1 Hd2 Hr2.
      injection Hr2 as Hr2. cut_digits Hr2 Hd3 Hr3. lia.
    + injection Hr1 as Hr1. cut_digits Hr1 Hd2 Hr2. lia.
    + lia.
Qed.

End duration_extras.

(** ** The printer client: which request is sent and when a call succeeds *)

Section client_extras.
Context `{GoRuntime}.
Context `{!JSONDecode octoprint.PrinterResponse}
        `{!JSONDecode octoprint.JobResponse}
        `{!JSONDecode octoprint.SpoolResponse}.
Import octoprint.

Implicit Types (net : Net) (c : Client).

(** The request [newRequest] builds for a path. *)
Lemma newRequest_Ok net c (method path : string)
    (body : option (gmap string http.JSONValue)) (req : http.Request) :
  newRequest net c method path body = Ok req <->
  NewRequest net method (baseURL c +:+ path) = None /\
  req = {| http.Method := method; http.URL := baseURL c +:+ path;
           http.XApiKey := apiKey c; http.Payload := body |}.
Proof.
  unfold newRequest.
  destruct (NewRequest net method (baseURL c +:+ path)); split.
  - discriminate.
  - intros [Hnone _]. discriminate Hnone.
  - intros Hreq. injection Hreq as <-. auto.
  - intros [_ ->]. reflexivity.
Qed.

Lemma doRequest_Ok {T : Type} `{!JSONDecode T} net (req : http.Request) (v : T) :
  doRequest net req = Ok v <->
  exists resp,
    Do net req = Ok resp /\ (http.StatusCode resp < 400)%Z /\
    json_Decode (http.Body resp) = Ok v.
Proof.
  unfold doRequest. destruct (Do net req) as [resp|err]; split.
  - destruct (400 <=? http.StatusCode resp)%Z eqn:Hcode; [discriminate |].
    intros Hdec. exists resp. apply Z.leb_gt in Hcode. auto.
  - intros (resp' & Hdo & Hcode & Hdec). injection Hdo as <-.
    apply Z.leb_gt in Hcode. now rewrite Hcode.
  - discriminate.
  - intros (resp & Hdo & _). discriminate Hdo.
Qed.

(** The state and the job fetch succeed exactly when the GET request for
    "/api/printer", respectively "/api/job", under the client's base URL,
    carrying the client's API key and no body, is accepted, is answered with a
    status below 400, and the body decodes; the result is the decoded
    body. *)
Theorem GetPrinterState_GetJob_Ok net c :
  (forall printerResp,
     GetPrinterState net c = Ok printerResp <->
     NewRequest net "GET" (baseURL c +:+ "/api/printer") = None /\
     exists resp,
       Do net {| http.Method := "GET"; http.URL := baseURL c +:+ "/api/printer";
                 http.XApiKey := apiKey c; http.Payload := None |} = Ok resp /\
       (http.StatusCode resp < 400)%Z /\
       json_Decode (http.Body resp) = Ok printerResp) /\
  (forall jobResp,
     GetJob net c = Ok jobResp <->
     NewRequest net "GET" (baseURL c +:+ "/api/job") = None /\
     exists resp,
       Do net {| http.Method := "GET"; http.URL := baseURL c +:+ "/api/job";
                 http.XApiKey := apiKey c; http.Payload := None |} = Ok resp /\
       (http.StatusCode resp < 400)%Z /\
       json_Decode (http.Body resp) = Ok jobResp).
Proof.
  split; intros v.
  - unfold GetPrinterState.
    destruct (newRequest net c "GET" "/api/printer" None) as [req|err] eqn:Hreq.
    + apply newRequest_Ok in Hreq as [Hnone ->].
      rewrite doRequest_Ok. split; [auto | now intros [_ Hdo]].
    + split; [discriminate |]. intros [Hnone _].
      unfold newRequest in Hreq. rewrite Hnone in Hreq. discriminate Hreq.
  - unfold GetJob.
    destruct (newRequest net c "GET" "/api/job" None) as [req|err] eqn:Hreq.
    + apply newRequest_Ok in Hreq as [Hnone ->].
      rewrite doRequest_Ok. split; [auto | now intros [_ Hdo]].
    + split; [discriminate |]. intros [Hnone _].
      unfold newRequest in Hreq. rewrite Hnone in Hreq. discriminate Hreq.
Qed.

(** The spool identifier is obtained exactly when the POST request to
    "/api/plugin/spoolman_api", whose payload names the command
    "get_current_spool" and the tool, is accepted, is answered with a status
    below 400, and the body decodes to a response with [success] set; the
    identifier is the response's [spool_id], possibly empty. *)
Theorem GetCurrentSpool_Ok net c (tool : Z) (spoolID : string) :
  spoolPayload tool !! "command" = Some (http.JString "get_current_spool") /\
  spoolPayload tool !! "tool" = Some (http.JInt tool) /\
  (GetCurrentSpool net c tool = Ok spoolID <->
   NewRequest net "POST" (baseURL c +:+ "/api/plugin/spoolman_api") = None /\
   exists resp response,
     Do net {| http.Method := "POST";
               http.URL := baseURL c +:+ "/api/plugin/spoolman_api";
               http.XApiKey := apiKey c;
               http.Payload := Some (spoolPayload tool) |} = Ok resp /\
     (http.StatusCode resp < 400)%Z /\
     json_Decode (http.Body resp) = Ok response /\
     Success response = true /\
     SpoolID response = spoolID).
Proof.
  split; [apply lookup_insert_eq |].
  split; [unfold spoolPayload;
          rewrite lookup_insert_ne by discriminate; apply lookup_insert_eq |].
  unfold GetCurrentSpool. simpl.
  destruct (newRequest net c "POST" "/api/plugin/spoolman_api"
              (Some (spoolPayload tool))) as [req|err] eqn:Hreq.
  - apply newRequest_Ok in Hreq as [Hnone ->].
    destruct (doRequest (T := SpoolResponse) net _) as [response|err] eqn:Hdo.
    + apply doRequest_Ok in Hdo as (resp & Hdo & Hcode & Hdec).
      destruct (Success response) eqn:Hsuccess; simpl; split.
      * intros Hid. injection Hid as <-. split; [exact Hnone |].
        exists resp, response. auto.
      * intros (_ & resp' & response' & Hdo' & _ & Hdec' & _ & Hid).
        congruence.
      * discriminate.
      * intros (_ & resp' & response' & Hdo' & _ & Hdec' & Hsuccess' & _).
        congruence.
    + split; [discriminate |].
      intros (_ & resp & response & Hdo' & Hcode & Hdec & _).
      assert (Hok : doRequest (T := SpoolResponse) net
                      {| http.Method := "POST";
                         http.URL := baseURL c +:+ "/api/plugin/spoolman_api";
                         http.XApiKey := apiKey c;
                         http.Payload := Some (spoolPayload tool) |} = Ok response)
        by (apply doRequest_Ok; eauto).
      congruence.
  - split; [discriminate |]. intros [Hnone _].
    unfold newRequest in Hreq. rewrite Hnone in Hreq. discriminate Hreq.
Qed.

End client_extras.

(** ** The example installation, continued *)

Section example_extras.
Import handlers Example.
#[local] Existing Instance runtime.
#[local] Existing Instance inventory.
#[local] Existing Instance decodePrinter.
#[local] Existing Instance decodeJob.
#[local] Existing Instance decodeSpool.

(** The Mini's record carries an error. *)
Lemma fetchPrinterStatus_error_is_bare_witness :
  models.Status (fst (pipeline h w mini)) = "offline" /\
  models.Temperatures (fst (pipeline h w mini)) = None /\
  length (snd (pipeline h w mini)) <= 1.
Proof.
  destruct (fetchPrinterStatus_error_is_bare h w mini)
    as (Hstatus & _ & _ & Htemp & _ & _ & Hlen).
  - vm_compute. discriminate.
  - auto.
Defined.

(** With its job endpoint answering, the MK4 reports progress. *)
Lemma fetchPrinterStatus_block_dependencies_witness :
  models.Progress (fst (pipeline h w_job mk4)) <> None /\
  models.Status (fst (pipeline h w_job mk4)) = "printing" /\
  models.Temperatures (fst (pipeline h w_job mk4)) <> None.
Proof.
  assert (Hprogress : models.Progress (fst (pipeline h w_job mk4)) <> None)
    by (vm_compute; discriminate).
  destruct (fetchPrinterStatus_block_dependencies h w_job mk4)
    as (Hprinting & _ & Htemp & _).
  auto.
Defined.

Lemma fetchPrinterStatus_call_order_witness :
  snd (pipeline h w mk4) = [CallGetPrinterState mk4_client] \/
  exists jobs lookups,
    snd (pipeline h w mk4)
      = CallGetPrinterState mk4_client :: jobs
          ++ CallGetCurrentSpool mk4_client 0 :: lookups /\
    (jobs = [] \/ jobs = [CallGetJob mk4_client]) /\
    (lookups = [] \/
     exists spoolID,
       spoolID <> "" /\
       octoprint.GetCurrentSpool (net w) mk4_client 0 = Ok spoolID /\
       lookups = [CallGetSpool (spoolmanClient h) spoolID]).
Proof.
  apply (proj1 (proj2 (fetchPrinterStatus_call_order h w mk4)) mk4_client).
  vm_compute; reflexivity.
Defined.

Lemma fetchPrinterStatus_state_success_witness :
  models.State (fst (pipeline h w xl)) = "Operational" /\
  models.Error (fst (pipeline h w xl)) = "".
Proof.
  destruct (fetchPrinterStatus_state_success h w xl xl_client
              (state "Operational" false false true))
    as (Hstate & _ & Herror).
  - vm_compute; reflexivity.
  - vm_compute; reflexivity.
  - split; [exact Hstate | exact Herror].
Defined.

Lemma fetchPrinterStatus_job_success_witness :
  models.ThumbnailURL (fst (pipeline h w_job mk4))
    = octoprint.GetThumbnail mk4_client "boats/benchy.gcode".
Proof.
  destruct (fetchPrinterStatus_job_success h w_job mk4 mk4_client
              (state "Printing" true true false) benchy)
    as [_ Hthumb].
  - vm_compute; reflexivity.
  - vm_compute; reflexivity.
  - reflexivity.
  - vm_compute; reflexivity.
  - exact Hthumb.
Defined.

Lemma fetchPrinterStatus_spool_block_witness :
  models.CurrentSpool (fst (pipeline h w_spool mk4))
    = Some (<["name" := "PLA black"]> ∅).
Proof.
  apply (proj2 (fetchPrinterStatus_spool_block h w_spool mk4 mk4_client
                  (state "Printing" true true false)
                  (<["name" := "PLA black"]> ∅)
                  ltac:(vm_compute; reflexivity)
                  ltac:(vm_compute; reflexivity))).
  exists "7", "PLA black".
  split; [discriminate |]. repeat split; vm_compute; reflexivity.
Defined.

(** The two printers configured as "mk4" are both polled at the twin's
    address. *)
Lemma fetchPrinterStatus_same_ID_witness :
  config.OctoPrintURL mk4 <> config.OctoPrintURL mk4_twin /\
  snd (pipeline h_twins w mk4) = snd (pipeline h_twins w mk4_twin) /\
  models.Error (fst (pipeline h_twins w mk4))
    = models.Error (fst (pipeline h_twins w mk4_twin)).
Proof.
  split; [discriminate |].
  destruct (fetchPrinterStatus_same_ID h_twins w mk4 mk4_twin eq_refl)
    as (Hlog & _ & _ & _ & _ & _ & _ & Herror).
  split; [exact Hlog | exact Herror].
Defined.

Lemma fetchPrinterStatus_http_error_witness :
  models.Status (fst (pipeline h w mini)) = "offline" /\
  models.Error (fst (pipeline h w mini)) = "HTTP 503: starting".
Proof.
  destruct (fetchPrinterStatus_http_error h w mini mini_client
              {| http.StatusCode := 503; http.Body := "starting" |})
    as (Hstatus & Herror & _).
  - vm_compute; reflexivity.
  - reflexivity.
  - vm_compute; reflexivity.
  - simpl. lia.
  - split; [exact Hstatus | exact Herror].
Defined.

Lemma fetchPrinterStatus_progress_block_witness :
  models.Progress (fst (pipeline h w_job mk4)) <> None /\
  models.ThumbnailURL (fst (pipeline h w_job mk4)) <> "".
Proof.
  destruct (fetchPrinterStatus_progress_block h w_job mk4 mk4_client
              (state "Printing" true true false))
    as [Hprogress Hthumb];
    [vm_compute; reflexivity | vm_compute; reflexivity |].
  split.
  - apply Hprogress. split; [reflexivity |].
    exists benchy. vm_compute; reflexivity.
  - apply Hthumb. split; [reflexivity |].
    exists benchy. split; [vm_compute; reflexivity | discriminate].
Defined.

(** Under the ID "mk4" the handler of the twin configuration holds the
    client of the second printer. *)
Lemma NewHandler_last_printer_wins_witness :
  octoprintClients h_twins !! "mk4" = Some (octoprint.NewClient "http://mk4b" "k4").
Proof.
  apply (proj1 (NewHandler_last_printer_wins cfg_twins "mk4")).
  exists [mk4; mini], mk4_twin, [].
  repeat split; constructor.
Defined.

Lemma NewHandler_own_client_witness :
  octoprintClients h !! "mk4" = Some mk4_client /\
  head (snd (pipeline h w mk4)) = Some (CallGetPrinterState mk4_client).
Proof.
  apply (NewHandler_own_client cfg w mk4).
  - apply (bool_decide_unpack _). vm_compute. exact I.
  - apply list_elem_of_here.
Defined.

Lemma handleStatus_one_record_each_witness :
  length (printers (handleStatus h w [2; 0; 0])) = 3 /\
  map models.ID (printers (handleStatus h w [2; 0; 0])) ≡ₚ ["mk4"; "mini"; "xl"].
Proof.
  destruct (handleStatus_one_record_each h w (handleStatus h w [2; 0; 0]))
    as (_ & Hlen & _ & Hids).
  - apply handleStatus_sched_returns.
  - split; [exact Hlen | exact Hids].
Defined.

Lemma handleStatus_any_order_witness :
  handleStatus_returns h w
    {| status := "ok"; printers := records h w [xl; mk4; mini] |}.
Proof.
  apply (handleStatus_any_order h w [xl; mk4; mini]).
  apply (Permutation_cons_append [mk4; mini] xl).
Defined.

Lemma handleStatus_small_config_witness :
  handleStatus h_unmapped w [7] =
    {| status := "ok"; printers := records h_unmapped w [mk4] |}.
Proof.
  apply (handleStatus_small_config h_unmapped w).
  - simpl. lia.
  - apply handleStatus_sched_returns.
Defined.

(** A page of two cards receives a response that knows only the second. *)
Lemma merge_first_match_witness :
  app.merge [app.ConfigCard (<["id" := "mini"]> ∅);
             app.ConfigCard (<["id" := "xl"]> ∅)]
            [fst (pipeline h w xl)] !! 0
    = Some (app.ConfigCard (<["id" := "mini"]> ∅)) /\
  app.merge [app.ConfigCard (<["id" := "mini"]> ∅);
             app.ConfigCard (<["id" := "xl"]> ∅)]
            [fst (pipeline h w xl)] !! 1
    = Some (app.StatusCard (fst (pipeline h w xl))).
Proof.
  destruct (merge_first_match
              [app.ConfigCard (<["id" := "mini"]> ∅);
               app.ConfigCard (<["id" := "xl"]> ∅)]
              [fst (pipeline h w xl)])
    as (_ & _ & Hkept & Hfirst).
  split.
  - apply Hkept; [reflexivity |].
    intros u Hu. apply list_elem_of_singleton in Hu as ->.
    vm_compute. discriminate.
  - apply (Hfirst 1%nat (app.ConfigCard (<["id" := "xl"]> ∅)) []
                    (fst (pipeline h w xl)) []);
      [reflexivity | reflexivity | vm_compute; reflexivity | constructor].
Defined.

(** The response in which the XL came first is shown in configuration
    order. *)
Lemma page_shows_poll_in_configuration_order_witness :
  map models.ID (printers (handleStatus h w [2; 0; 0])) = ["xl"; "mk4"; "mini"] /\
  app.printers
    (app.polls (app.init (handleDashboard_printers h) app.FetchFailed)
               ([] ++ [app.FetchData (Some (printers (handleStatus h w [2; 0; 0])))]))
    = map app.StatusCard (records h w [mk4; mini; xl]).
Proof.
  split; [vm_compute; reflexivity |].
  apply (page_shows_poll_in_configuration_order h w
           (handleStatus h w [2; 0; 0]) app.FetchFailed []).
  - apply (bool_decide_unpack _). vm_compute. exact I.
  - apply handleStatus_sched_returns.
Defined.

Lemma handleDashboard_printers_entries_witness :
  exists entry,
    handleDashboard_printers h !! 1 = Some entry /\
    entry !! "id" = Some "mini" /\
    entry !! "name" = Some "Prusa Mini" /\
    entry !! "octoprint_url" = Some "http://mini" /\
    (forall k, is_Some (entry !! k) ->
               k = "id" \/ k = "name" \/ k = "octoprint_url").
Proof.
  apply (proj2 (handleDashboard_printers_entries h) 1 mini).
  reflexivity.
Defined.

(** The XL's state fetch and its spool identifier fetch succeed. *)
Lemma GetPrinterState_GetJob_Ok_witness :
  octoprint.GetPrinterState (net w) xl_client
    = Ok (state "Operational" false false true).
Proof.
  apply (proj1 (GetPrinterState_GetJob_Ok (net w) xl_client)).
  split; [reflexivity |].
  exists {| http.StatusCode := 200; http.Body := "ready" |}.
  split; [vm_compute; reflexivity |]. split; [reflexivity |].
  vm_compute; reflexivity.
Defined.

Lemma GetCurrentSpool_Ok_witness :
  octoprint.GetCurrentSpool (net w_spool) mk4_client 0 = Ok "7".
Proof.
  apply (proj2 (proj2 (GetCurrentSpool_Ok (net w_spool) mk4_client 0 "7"))).
  split; [reflexivity |].
  exists {| http.StatusCode := 200; http.Body := "spool 7" |},
         {| octoprint.Success := true; octoprint.SpoolID := "7";
            octoprint.Error' := "" |}.
  split; [vm_compute; reflexivity |]. split; [reflexivity |].
  split; [vm_compute; reflexivity |]. split; reflexivity.
Defined.

Lemma FormatDuration_parts_witness :
  models.FormatDuration 3725 = "1h 2m 5s" /\
  models.FormatDuration 125 = "2m 5s" /\
  models.FormatDuration 59 = "59s" /\
  models.FormatDuration (-5) = "--:--:--".
Proof.
  destruct (FormatDuration_parts 3725) as [_ H3].
  destruct (FormatDuration_parts 125) as [_ H2].
  destruct (FormatDuration_parts 59) as [_ H1].
  destruct (FormatDuration_parts (-5)) as [H0 _].
  destruct (H3 ltac:(lia)) as (_ & _ & _ & _ & Hbig & _ & _).
  destruct (H2 ltac:(lia)) as (_ & _ & _ & _ & _ & Hmid & _).
  destruct (H1 ltac:(lia)) as (_ & _ & _ & _ & _ & _ & Hsmall).
  split; [rewrite Hbig by lia; vm_compute; reflexivity |].
  split; [rewrite Hmid by lia; vm_compute; reflexivity |].
  split; [rewrite Hsmall by lia; vm_compute; reflexivity |].
  apply H0. lia.
Defined.

Lemma FormatDuration_injective_witness :
  models.FormatDuration 3725 <> "--:--:--" /\
  models.FormatDuration 3725 <> models.FormatDuration 3726.
Proof.
  destruct (FormatDuration_injective 3725 3726) as [Hplace Hinj]; [lia |].
  split; [exact Hplace |].
  intros Heq. apply Hinj in Heq; lia.
Defined.

(** The XL's record is the same whether or not the MK4's spool steps
    succeed. *)
Lemma fetchPrinterStatus_isolation_witness :
  pipeline h w_spool mk4 <> pipeline h w mk4 /\
  pipeline h w_spool xl = pipeline h w xl.
Proof.
  split.
  - intros Heq. apply (f_equal (fun r => length (snd r))) in Heq.
    vm_compute in Heq. discriminate Heq.
  - apply (fetchPrinterStatus_isolation h w w_spool xl).
    intros client Hclient.
    assert (client = xl_client) as ->
      by (vm_compute in Hclient; now injection Hclient as <-).
    split; [vm_compute; reflexivity |]. split; [vm_compute; reflexivity |].
    split; [vm_compute; reflexivity |].
    intros spoolID Hid. vm_compute in Hid. injection Hid as <-.
    vm_compute; reflexivity.
Defined.

End example_extras.
